(** * CrashReporter: the offline report store, the channels and the watcher

    A shallow embedding of [crashreporter/crashreporter.py].

    The reporter object and the report directory are one explicit state
    that every method threads through; a Python exception is an outcome of
    its own that carries the state reached when it was raised, so partial
    effects of a failed method stay visible.

    Conventions of the embedding:
    - the report directory is a finite map from file names (relative to
      [report_dir]) to file contents; it holds regular files only;
    - [self.body()] belongs to the formatting code and is passed around as
      the text it returns;
    - what the mail and FTP servers do during one session is an input
      (a "world"), one per delivery attempt;
    - everything observable from outside (log records, file operations,
      mails, uploads, thread starts, sleeps) is appended to [events]. *)

From Stdlib Require Import ZArith String Ascii List DecimalString.
From stdpp Require Import base gmap strings sorting list.

Local Open Scope Z_scope.

(** ** Python values and built-ins used by the module *)

Module Py.

Inductive exn : Type :=
| ValueError        (* int() on a non-numeric literal *)
| TypeError         (* bool |= None, open() of a list *)
| OSError           (* os.remove of a missing file *)
| IOError           (* open() of a missing file *)
| ShutilError       (* shutil.copy2 of a file onto itself *)
| SocketError       (* socket.error / socket.timeout / gaierror *)
| SMTPException     (* smtplib: refused, authentication, disconnected *)
| FTPError          (* ftplib.Error: error_reply/temp/perm/proto *)
| EOFError          (* connection closed by the FTP peer *)
| KeyboardInterrupt (* a BaseException that is no Exception *).

#[global] Instance exn_eq_dec : EqDecision exn.
Proof. solve_decision. Defined.

(** [except Exception] *)
Definition is_Exception (e : exn) : bool :=
  match e with KeyboardInterrupt => false | _ => true end.

(** [ftplib.all_errors = (Error, IOError, EOFError)]; [socket.error] is
    a subclass of [IOError]. *)
Definition ftplib_all_errors (e : exn) : bool :=
  match e with
  | FTPError | IOError | SocketError | EOFError => true
  | _ => false
  end.

(** The value a method hands to [great_success |= ...]. *)
Inductive value : Type :=
| PyBool (b : bool)
| PyNone.

(** [a | b] with [a] a bool: defined on bools, [TypeError] on [None]. *)
Definition ior (a : bool) (b : value) : exn + bool :=
  match b with
  | PyBool b' => inr (a || b')
  | PyNone => inl TypeError
  end.

Definition is_digit (c : ascii) : bool :=
  (48 <=? Z.of_nat (nat_of_ascii c)) && (Z.of_nat (nat_of_ascii c) <=? 57).

(** [string.whitespace]: space, TAB, LF, VT, FF, CR *)
Definition is_space (c : ascii) : bool :=
  let n := nat_of_ascii c in
  (n =? 32)%nat || ((9 <=? n)%nat && (n <=? 13)%nat).

Definition digit_val (c : ascii) : Z := Z.of_nat (nat_of_ascii c) - 48.

Fixpoint lstrip (l : list ascii) : list ascii :=
  match l with
  | c :: l' => if is_space c then lstrip l' else l
  | [] => []
  end.

Definition strip (l : list ascii) : list ascii :=
  rev (lstrip (rev (lstrip l))).

Definition digits (l : list ascii) : option Z :=
  match l with
  | [] => None
  | _ => if forallb is_digit l
         then Some (fold_left (fun acc c => 10 * acc + digit_val c) l 0)
         else None
  end.

(** [int(s)] for a decimal literal: optional surrounding whitespace, an
    optional sign, at least one digit; anything else is a [ValueError]
    ([None]). *)
Definition int (s : string) : option Z :=
  match strip (list_ascii_of_string s) with
  | "+"%char :: l => digits l
  | "-"%char :: l => Z.opp <$> digits l
  | l => digits l
  end.

(** [s[-2:]] *)
Definition last2 (s : string) : string :=
  let l := list_ascii_of_string s in
  string_of_list_ascii (drop (length l - 2)%nat l).

(** ["%02d" % n] *)
Definition fmt_02d (n : Z) : string :=
  let s := NilZero.string_of_int (Z.to_int n) in
  if (String.length s <? 2)%nat then "0" +:+ s else s.

(** [sorted] on strings: lexicographic on character codes. *)
Definition str_le (a b : string) : Prop := String.leb a b = true.

#[global] Instance str_le_dec : RelDecision str_le.
Proof. intros a b. unfold str_le. apply _. Defined.

Definition sorted (l : list string) : list string := merge_sort str_le l.

End Py.

Import Py.

(** ** The reporter object *)

Record smtp_info : Type := {
  smtp_host : string; smtp_port : Z; smtp_user : string;
  smtp_passwd : string; smtp_recipients : string }.

Record ftp_info : Type := {
  ftp_host : string; ftp_port : Z; ftp_user : string; ftp_passwd : string;
  ftp_path : string; ftp_timeout : Z; ftp_acct : string }.

Inductive event : Type :=
| LogInfo (msg : string)
| LogError (prefix : string) (e : exn) (* logger.error(prefix % e) *)
| FsCopy (src dst : string)          (* shutil.copy2 inside report_dir *)
| FsRemove (name : string)           (* os.remove inside report_dir *)
| FsWrite (name : string)            (* a report written in report_dir *)
| TmpWrite (name : string)           (* a file written in the working dir *)
| MailSent (subject body : string)
| FtpStor (name : string)
| ThreadStart
| Sleep.

#[global] Instance event_eq_dec : EqDecision event.
Proof. solve_decision. Defined.

Record reporter : Type := {
  html : bool;
  _smtp : option smtp_info;
  _ftp : option ftp_info;
  _enabled : bool;
  offline_report_limit : Z;
  _watcher : option unit;            (* the Thread object, once created *)
  _watcher_enabled : bool;
  report_dir : gmap string string;   (* the files of the report directory *)
  events : list event                (* oldest first *)
}.

Definition set_smtp (i : option smtp_info) (r : reporter) : reporter :=
  {| html := html r; _smtp := i; _ftp := _ftp r; _enabled := _enabled r;
     offline_report_limit := offline_report_limit r; _watcher := _watcher r;
     _watcher_enabled := _watcher_enabled r; report_dir := report_dir r;
     events := events r |}.

Definition set_ftp (i : option ftp_info) (r : reporter) : reporter :=
  {| html := html r; _smtp := _smtp r; _ftp := i; _enabled := _enabled r;
     offline_report_limit := offline_report_limit r; _watcher := _watcher r;
     _watcher_enabled := _watcher_enabled r; report_dir := report_dir r;
     events := events r |}.

Definition set_enabled (b : bool) (r : reporter) : reporter :=
  {| html := html r; _smtp := _smtp r; _ftp := _ftp r; _enabled := b;
     offline_report_limit := offline_report_limit r; _watcher := _watcher r;
     _watcher_enabled := _watcher_enabled r; report_dir := report_dir r;
     events := events r |}.

Definition set_watcher (w : option unit) (r : reporter) : reporter :=
  {| html := html r; _smtp := _smtp r; _ftp := _ftp r; _enabled := _enabled r;
     offline_report_limit := offline_report_limit r; _watcher := w;
     _watcher_enabled := _watcher_enabled r; report_dir := report_dir r;
     events := events r |}.

Definition set_watcher_enabled (b : bool) (r : reporter) : reporter :=
  {| html := html r; _smtp := _smtp r; _ftp := _ftp r; _enabled := _enabled r;
     offline_report_limit := offline_report_limit r; _watcher := _watcher r;
     _watcher_enabled := b; report_dir := report_dir r;
     events := events r |}.

Definition set_report_dir (d : gmap string string) (r : reporter) : reporter :=
  {| html := html r; _smtp := _smtp r; _ftp := _ftp r; _enabled := _enabled r;
     offline_report_limit := offline_report_limit r; _watcher := _watcher r;
     _watcher_enabled := _watcher_enabled r; report_dir := d;
     events := events r |}.

Definition set_events (evs : list event) (r : reporter) : reporter :=
  {| html := html r; _smtp := _smtp r; _ftp := _ftp r; _enabled := _enabled r;
     offline_report_limit := offline_report_limit r; _watcher := _watcher r;
     _watcher_enabled := _watcher_enabled r; report_dir := report_dir r;
     events := evs |}.

Definition add_event (e : event) (r : reporter) : reporter :=
  set_events (events r ++ [e]) r.

(** ** Methods as state transformers that may raise *)

Inductive outcome (A : Type) : Type :=
| Ret (a : A) (s : reporter)
| Raise (e : exn) (s : reporter).
Arguments Ret {A} a s.
Arguments Raise {A} e s.

Definition M (A : Type) : Type := reporter → outcome A.

Definition ret {A} (a : A) : M A := fun s => Ret a s.
Definition raise {A} (e : exn) : M A := fun s => Raise e s.
Definition bind {A B} (m : M A) (k : A → M B) : M B :=
  fun s => match m s with
           | Ret a s' => k a s'
           | Raise e s' => Raise e s'
           end.
Definition gets {A} (f : reporter → A) : M A := fun s => Ret (f s) s.
Definition modify (f : reporter → reporter) : M unit := fun s => Ret tt (f s).

Declare Scope py_scope.
Delimit Scope py_scope with py.
Notation "x <- m ;; k" := (bind m (fun x => k))
  (at level 100, m at next level, right associativity) : py_scope.
Notation "m ;; k" := (bind m (fun _ => k))
  (at level 100, right associativity) : py_scope.
Local Open Scope py_scope.

(** [for x in l: body(x)] *)
Fixpoint for_each {A} (l : list A) (body : A → M unit) : M unit :=
  match l with
  | [] => ret tt
  | x :: l' => body x ;; for_each l' body
  end.

(** The state an outcome ends in, whether it returned or raised. *)
Definition final {A} (o : outcome A) : reporter :=
  match o with Ret _ s => s | Raise _ s => s end.

Definition log_info (msg : string) : M unit := modify (add_event (LogInfo msg)).
Definition log_error (prefix : string) (e : exn) : M unit :=
  modify (add_event (LogError prefix e)).

Definition lift_exn (o : option exn) : M unit :=
  match o with Some e => raise e | None => ret tt end.

(** ** File operations on the report directory *)

(** [os.remove(name)] for the entries this development has, regular
    files: it fails on a missing name only. A sub-directory of the report
    directory, on which [os.remove] raises as well, is not represented. *)
Definition os_remove (name : string) : M unit :=
  fun s => match report_dir s !! name with
           | Some _ => Ret tt (add_event (FsRemove name)
                                 (set_report_dir (delete name (report_dir s)) s))
           | None => Raise OSError s
           end.

Definition shutil_copy2 (src dst : string) : M unit :=
  fun s => match report_dir s !! src with
           | None => Raise IOError s
           | Some c =>
               if decide (src = dst) then Raise ShutilError s
               else Ret tt (add_event (FsCopy src dst)
                              (set_report_dir (<[dst := c]> (report_dir s)) s))
           end.

(** [open(name, 'r').read()] *)
Definition read_file (name : string) : M string :=
  fun s => match report_dir s !! name with
           | Some c => Ret c s
           | None => Raise IOError s
           end.

(** ** The report store *)

(** [report_template = "crashreport%02d.txt"], applied to [n]. *)
Definition report_template (n : Z) : string :=
  "crashreport" +:+ fmt_02d n +:+ ".txt".

(** [glob.glob(os.path.join(self.report_dir, "crashreport*"))] *)
Definition glob_crashreport (d : gmap string string) : list string :=
  filter (fun name => String.prefix "crashreport" name = true)
         (map_to_list d).*1.

Definition _get_offline_reports : M (list string) :=
  gets (fun s => sorted (glob_crashreport (report_dir s))).

(** [_write_report(path)] for a path inside the report directory;
    [body] is what [self.body()] returns. *)
Definition _write_report (path body : string) : M unit :=
  modify (fun s => add_event (FsWrite path)
                     (set_report_dir (<[path := body]> (report_dir s)) s)).

Definition delete_offline_reports : M unit :=
  reports <- _get_offline_reports ;;
  for_each reports os_remove.

Definition _save_report (body : string) : M unit :=
  offline_reports <- _get_offline_reports ;;
  (match offline_reports with
   | [] => ret tt
   | first :: _ =>
       (* Increment the name of all existing reports *)
       for_each (rev offline_reports) (fun report =>
         match int (last2 report) with
         | None => raise ValueError
         | Some n => shutil_copy2 report (report_template (n + 1))
         end) ;;
       (* after the loop [report] is the last element visited, the head
          of the sorted list *)
       os_remove first ;;
       (* Delete the oldest report *)
       limit <- gets offline_report_limit ;;
       if Z.of_nat (length offline_reports) >=? limit
       then os_remove (report_template (limit + 1))
       else ret tt
   end) ;;
  _write_report (report_template 1) body.

(** ** Reporter life cycle *)

Definition setup_smtp (i : smtp_info) : M unit := modify (set_smtp (Some i)).
Definition setup_ftp (i : ftp_info) : M unit := modify (set_ftp (Some i)).

Definition enable : M unit :=
  log_info "CrashReporter: Enabled" ;;
  modify (set_enabled true).

Definition start_watcher : M unit :=
  reports <- _get_offline_reports ;;
  match reports with
  | [] => ret tt
  | _ :: _ =>
      log_info "CrashReporter: Starting watcher." ;;
      modify (set_watcher (Some tt)) ;;
      modify (set_watcher_enabled true) ;;
      modify (add_event ThreadStart)
  end.

Definition stop_watcher : M unit :=
  w <- gets _watcher ;;
  match w with
  | Some _ =>
      modify (set_watcher_enabled false) ;;
      log_info "CrashReporter: Stopping watcher."
  | None => ret tt
  end.

Definition disable : M unit :=
  log_info "CrashReporter: Disabled" ;;
  modify (set_enabled false) ;;
  stop_watcher.

(** [CrashReporter(report_dir, offline_report_limit, html)] for a given
    [report_dir]; [disk] is the content of that directory when it exists. *)
Definition __init__ (disk : option (gmap string string))
    (limit : Z) (use_html : bool) : outcome unit :=
  let self := {| html := use_html; _smtp := None; _ftp := None;
                 _enabled := true; offline_report_limit := limit;
                 _watcher := None; _watcher_enabled := false;
                 report_dir := default ∅ disk; events := [] |} in
  match disk with
  | Some _ => start_watcher self
  | None => Ret tt self            (* os.makedirs(report_dir) *)
  end.

Definition __enter__ : M unit := enable.

Definition subject : string := "Crash Report".

(** [attachments()]: the list of files to attach, empty in this class. *)
Definition attachments : list string := [].

(** ** Channels *)

(** The exception, if any, that the mail session raises between
    [smtplib.SMTP(...)] and [ms.close()]. *)
Definition smtp_world : Type := option exn.

(** What the FTP server does during one session; listings and uploads are
    numbered from 0 within the session. *)
Record ftp_world : Type := {
  ftp_connect : option exn;
  ftp_login : option exn;
  ftp_cwd : option exn;
  ftp_nlst : nat → exn + nat;
  ftp_storlines : nat → option exn }.

(** The [try] block of the FTP methods: [ftp.connect(...)] then
    [ftp.login(...)]; the first exception raised there, if any. *)
Definition ftp_session_error (w : ftp_world) : option exn :=
  match ftp_connect w with
  | Some e => Some e
  | None => ftp_login w
  end.

(** [_sendmail(subject, body, attachments, html)]; [html] only selects the
    MIME subtype of the body and is left out. *)
Definition _sendmail (w : smtp_world) (subj body : string)
    (attachments : list string) : M bool :=
  smtp <- gets _smtp ;;
  match smtp with
  | None => raise TypeError          (* smtp['recipients'] on None *)
  | Some _ =>
      (* Add any attachments: open(attachments, 'rb') receives the list *)
      (match attachments with
       | [] => ret tt
       | _ :: _ => raise TypeError
       end) ;;
      match w with
      | None => modify (add_event (MailSent subj body)) ;; ret true
      | Some e =>
          if is_Exception e
          then log_error "CrashReporter: " e ;; ret false
          else raise e
      end
  end.

(** [new_filename = report_template % (len(ftp.nlst()) + 1)] followed by
    [ftp.storlines('STOR ' + new_filename, _f)], the [i]-th of the session. *)
Definition ftp_upload (w : ftp_world) (i : nat) : M unit :=
  match ftp_nlst w i with
  | inl e => raise e
  | inr n =>
      lift_exn (ftp_storlines w i) ;;
      modify (add_event (FtpStor (report_template (Z.of_nat n + 1))))
  end.

(** The body of the bulk loop for the [i]-th report: [open(report, 'rb')]
    and the upload. *)
Definition upload_report (w : ftp_world) (ir : nat * string) : M unit :=
  read_file ir.2 ;; ftp_upload w ir.1.

Definition _ftp_submit (w : ftp_world) (body : string) : M bool :=
  info <- gets _ftp ;;
  match info with
  | None => raise TypeError          (* info['host'] on None *)
  | Some i =>
      match ftp_session_error w with
      | Some e =>
          if ftplib_all_errors e
          then log_error "" e ;; stop_watcher ;; ret false
          else raise e
      | None =>
          modify (add_event (TmpWrite "ftp_report.txt")) ;;
          lift_exn (ftp_cwd w) ;;
          ftp_upload w 0 ;;
          log_info ("CrashReporter: Submission to " +:+ ftp_host i +:+ " successful.") ;;
          ret true
      end
  end.

Definition _ftp_send_offline_reports (w : ftp_world) : M bool :=
  info <- gets _ftp ;;
  match info with
  | None => raise TypeError
  | Some i =>
      match ftp_session_error w with
      | Some e =>
          if ftplib_all_errors e
          then log_error "" e ;; ret false
          else raise e
      | None =>
          lift_exn (ftp_cwd w) ;;
          reports <- _get_offline_reports ;;
          for_each (zip (seq 0 (length reports)) reports) (upload_report w) ;;
          log_info ("CrashReporter: Submission to " +:+ ftp_host i +:+ " successful.") ;;
          ret true
      end
  end.

Definition separator : string :=
  "-------------------------------------------------" +:+ String "010" "".

(** The loop that appends every stored report to the mail body. *)
Fixpoint append_reports (reports : list string) (body : string) : M string :=
  match reports with
  | [] => ret body
  | report :: rest =>
      text <- read_file report ;;
      append_reports rest (body +:+ text +:+ separator)
  end.

Definition _smtp_send_offline_reports (w : smtp_world) : M value :=
  offline_reports <- _get_offline_reports ;;
  match offline_reports with
  | [] => ret PyNone                 (* falls off the end of the method *)
  | _ :: _ =>
      body <- append_reports offline_reports
                ("Here is a list of crash reports that were stored offline."
                 +:+ String "010" "" +:+ separator) ;;
      great_success <- _sendmail w subject body [] ;;
      (if great_success
       then log_info "CrashReporter: Offline reports sent."
       else ret tt) ;;
      ret (PyBool great_success)
  end.

(** [great_success |= v] *)
Definition ior_assign (great_success : bool) (v : value) : M bool :=
  match ior great_success v with
  | inl e => raise e
  | inr b => ret b
  end.

(** ** Leaving the monitored scope *)

(** The exception that left the [with] block, as far as the reporter uses
    it: the text [self.body()] derives from it. *)
Record exc_info : Type := { exc_body : string }.

Definition __exit__ (etype : option exc_info)
    (sw : smtp_world) (fw : ftp_world) : M unit :=
  enabled <- gets _enabled ;;
  if enabled then
    match etype with
    | Some exc =>
        smtp <- gets _smtp ;;
        gs1 <- (match smtp with
                | Some _ =>
                    (* Send the report via email *)
                    r <- _sendmail sw subject (exc_body exc) attachments ;;
                    ior_assign false (PyBool r)
                | None => ret false
                end) ;;
        ftp <- gets _ftp ;;
        gs2 <- (match ftp with
                | Some _ =>
                    (* Send the report via FTP *)
                    r <- _ftp_submit fw (exc_body exc) ;;
                    ior_assign gs1 (PyBool r)
                | None => ret gs1
                end) ;;
        (* If both FTP and email sending fails, save the report *)
        if negb gs2 then _save_report (exc_body exc) else ret tt
    | None => ret tt
    end
  else log_info "CrashReporter: No crashes detected.".

(** ** The watcher thread *)

(** Calls the main thread may make on the reporter while the watcher
    sleeps: the public methods of the class. An exception such a call
    raises belongs to the main thread; the watcher sees the state it left. *)
Inductive main_call : Type :=
| CallDisable
| CallStopWatcher
| CallDeleteOfflineReports
| CallEnable
| CallStartWatcher
| CallSetupSmtp (i : smtp_info)
| CallSetupFtp (i : ftp_info)
| CallExit (etype : option exc_info) (sw : smtp_world) (fw : ftp_world).

Definition run_main_call (c : main_call) : M unit :=
  fun s => Ret tt (final (match c with
                          | CallDisable => disable s
                          | CallStopWatcher => stop_watcher s
                          | CallDeleteOfflineReports => delete_offline_reports s
                          | CallEnable => enable s
                          | CallStartWatcher => start_watcher s
                          | CallSetupSmtp i => setup_smtp i s
                          | CallSetupFtp i => setup_ftp i s
                          | CallExit etype sw fw => __exit__ etype sw fw s
                          end)).

(** One turn of the loop as the thread meets it: what the main thread
    does during [time.sleep], and how the servers answer afterwards. *)
Record cycle : Type := {
  during_sleep : list main_call;
  cycle_smtp : smtp_world;
  cycle_ftp : ftp_world }.

Inductive thread_status : Type :=
| Stopped      (* the method returned *)
| Sleeping     (* the loop goes on beyond the cycles given *).

(** The code after the [while] loop. *)
Definition after_loop (great_success : bool) : M thread_status :=
  (if great_success then delete_offline_reports else ret tt) ;;
  log_info "CrashReporter: Watcher stopped." ;;
  ret Stopped.

(** The body of the loop once the flag has been tested: one bulk delivery
    per configured channel, mail first, or-ed into [great_success], which
    is [False] when an iteration starts. *)
Definition attempt_offline_reports (c : cycle) : M bool :=
  log_info "CrashReporter: Attempting to send offline reports." ;;
  smtp <- gets _smtp ;;
  gs1 <- (match smtp with
          | Some _ =>
              r <- _smtp_send_offline_reports (cycle_smtp c) ;;
              ior_assign false r
          | None => ret false
          end) ;;
  ftp <- gets _ftp ;;
  match ftp with
  | Some _ =>
      (* Send the report via FTP *)
      r <- _ftp_send_offline_reports (cycle_ftp c) ;;
      ior_assign gs1 (PyBool r)
  | None => ret gs1
  end.

(** [while not great_success: ...], one list element per iteration. *)
Fixpoint _watcher_thread (cycles : list cycle) : M thread_status :=
  match cycles with
  | [] => ret Sleeping
  | c :: rest =>
      modify (add_event Sleep) ;;
      for_each (during_sleep c) run_main_call ;;
      enabled <- gets _watcher_enabled ;;
      if negb enabled then after_loop false
      else
        great_success <- attempt_offline_reports c ;;
        if great_success then after_loop true else _watcher_thread rest
  end.

(** ** Sequences of store operations, as a caller that goes on after an
    exception sees them *)

Inductive store_op : Type :=
| Save (body : string)
| PurgeAll.

Definition run_op (o : store_op) : M unit :=
  match o with
  | Save body => _save_report body
  | PurgeAll => delete_offline_reports
  end.

Definition run_ops (ops : list store_op) (s : reporter) : reporter :=
  foldl (fun s o => final (run_op o s)) s ops.

(** The names [_get_offline_reports] returns in a state. *)
Definition list_reports (s : reporter) : list string :=
  sorted (glob_crashreport (report_dir s)).

(** The watcher is running: a thread was created and its flag is set. *)
Definition watcher_running (s : reporter) : Prop :=
  _watcher s = Some tt ∧ _watcher_enabled s = true.

Definition remove_all (l : list string) (d : gmap string string) : gmap string string :=
  foldl (fun d name => delete name d) d l.

(** Every store reached from an empty one is empty or holds the single
    file [crashreport01.txt]. *)
Definition at_most_first (s : reporter) : Prop :=
  list_reports s = [] ∨ list_reports s = [report_template 1].

(** ** Channels seen as one capability *)

(** A delivery attempt: the variant, what is sent and how the server
    answers. *)
Inductive channel : Type :=
| Mail (w : smtp_world) (subj body : string)
| Transfer (w : ftp_world) (body : string)
| TransferBulk (w : ftp_world).

Definition attempt_send (c : channel) : M bool :=
  match c with
  | Mail w subj body => _sendmail w subj body []
  | Transfer w body => _ftp_submit w body
  | TransferBulk w => _ftp_send_offline_reports w
  end.

Definition configured (c : channel) (s : reporter) : Prop :=
  match c with
  | Mail _ _ _ => is_Some (_smtp s)
  | Transfer _ _ | TransferBulk _ => is_Some (_ftp s)
  end.

(** The exception raised inside the channel's [try] block, if any. *)
Definition session_error (c : channel) : option exn :=
  match c with
  | Mail w _ _ => w
  | Transfer w _ | TransferBulk w => ftp_session_error w
  end.

(** The exception classes the channel's [except] clause names. *)
Definition handled (c : channel) (e : exn) : bool :=
  match c with
  | Mail _ _ _ => is_Exception e
  | Transfer _ _ | TransferBulk _ => ftplib_all_errors e
  end.

(** ** Answers of the servers during one watcher cycle *)

Definition smtp_ok (w : smtp_world) : bool :=
  match w with None => true | Some _ => false end.

Definition smtp_refused (w : smtp_world) : bool :=
  match w with Some e => is_Exception e | None => false end.

Definition ftp_refused (w : ftp_world) : bool :=
  match ftp_session_error w with Some e => ftplib_all_errors e | None => false end.

(** The session opens, the directory change works and each of the first
    [n] uploads gets its listing and is stored. *)
Definition ftp_bulk_ok (w : ftp_world) (n : nat) : bool :=
  match ftp_session_error w, ftp_cwd w with
  | None, None =>
      forallb (fun i => match ftp_nlst w i, ftp_storlines w i with
                        | inr _, None => true
                        | _, _ => false
                        end) (seq 0 n)
  | _, _ => false
  end.

(** Every configured channel's bulk delivery returns [False]. *)
Definition cycle_fails (s : reporter) (c : cycle) : bool :=
  match _smtp s with Some _ => smtp_refused (cycle_smtp c) | None => true end
  && match _ftp s with Some _ => ftp_refused (cycle_ftp c) | None => true end.

(** With [n] stored reports: every configured channel's bulk delivery
    returns a boolean and at least one returns [True]. *)
Definition cycle_succeeds (s : reporter) (n : nat) (c : cycle) : bool :=
  match _smtp s, _ftp s with
  | Some _, None => smtp_ok (cycle_smtp c)
  | None, Some _ => ftp_bulk_ok (cycle_ftp c) n
  | Some _, Some _ =>
      (smtp_ok (cycle_smtp c)
       && (ftp_bulk_ok (cycle_ftp c) n || ftp_refused (cycle_ftp c)))
      || (smtp_refused (cycle_smtp c) && ftp_bulk_ok (cycle_ftp c) n)
  | None, None => false
  end.

(** Number of [time.sleep] calls among some events, and the files removed
    there, in order. *)
Definition sleeps (evs : list event) : nat := count_occ event_eq_dec evs Sleep.

Definition removals (evs : list event) : list string :=
  omap (fun e => match e with FsRemove name => Some name | _ => None end) evs.

(** ** States used as concrete inputs *)

Definition fresh_reporter (limit : Z) : reporter :=
  final (__init__ None limit false).

Definition example_smtp : smtp_info :=
  {| smtp_host := "mail.example.org"; smtp_port := 587;
     smtp_user := "app@example.org"; smtp_passwd := "secret";
     smtp_recipients := "dev@example.org" |}.

Definition example_ftp : ftp_info :=
  {| ftp_host := "ftp.example.org"; ftp_port := 21; ftp_user := "app";
     ftp_passwd := "secret"; ftp_path := "/reports"; ftp_timeout := 5;
     ftp_acct := "" |}.

(** A server that accepts the session and every command; the remote
    directory holds [n] entries. *)
Definition ftp_up (n : nat) : ftp_world :=
  {| ftp_connect := None; ftp_login := None; ftp_cwd := None;
     ftp_nlst := fun _ => inr n; ftp_storlines := fun _ => None |}.

(** A server that cannot be reached. *)
Definition ftp_down : ftp_world :=
  {| ftp_connect := Some SocketError; ftp_login := None; ftp_cwd := None;
     ftp_nlst := fun _ => inr 0%nat; ftp_storlines := fun _ => None |}.

(** A server that accepts the login and then refuses the directory. *)
Definition ftp_no_such_dir : ftp_world :=
  {| ftp_connect := None; ftp_login := None; ftp_cwd := Some FTPError;
     ftp_nlst := fun _ => inr 0%nat; ftp_storlines := fun _ => None |}.

Definition mail_reporter : reporter :=
  final (setup_smtp example_smtp (fresh_reporter 10)).

Definition ftp_reporter : reporter :=
  final (setup_ftp example_ftp (fresh_reporter 10)).

(** A reporter constructed over a directory that already holds one
    report (so its watcher is started), with the FTP channel set up. *)
Definition watching_reporter : reporter :=
  final (setup_ftp example_ftp
           (final (__init__ (Some {[ "crashreport01.txt" := "old" ]}) 10 false))).

(** The same reporter with the mail channel instead, after the main
    thread has called [delete_offline_reports]: the watcher thread is
    alive and the store is empty. *)
Definition emptied_reporter : reporter :=
  final (delete_offline_reports
           (final (setup_smtp example_smtp
                     (final (__init__ (Some {[ "crashreport01.txt" := "old" ]})
                               10 false))))).

Definition quiet_cycle (sw : smtp_world) (fw : ftp_world) : cycle :=
  {| during_sleep := []; cycle_smtp := sw; cycle_ftp := fw |}.

(** ** What a method may change *)

Definition thread_starts (evs : list event) : nat :=
  count_occ event_eq_dec evs ThreadStart.

(** Events of the delivery channels and of the logger. *)
Definition channel_event (e : event) : bool :=
  match e with
  | LogInfo _ | LogError _ _ | TmpWrite _ | MailSent _ _ | FtpStor _ => true
  | _ => false
  end.

(** File operations inside the report directory. *)
Definition store_event (e : event) : bool :=
  match e with
  | FsCopy _ _ | FsRemove _ | FsWrite _ => true
  | _ => false
  end.

(** [s'] is [s] with some events accepted by [Q] appended, nothing else. *)
Definition only_adds (Q : event → bool) (s s' : reporter) : Prop :=
  ∃ evs, s' = set_events (events s ++ evs) s ∧ forallb Q evs = true.

(** [s'] is [s] with another report directory and file operations
    appended, nothing else. *)
Definition only_store (s s' : reporter) : Prop :=
  ∃ d evs, s' = set_events (events s ++ evs) (set_report_dir d s) ∧
           forallb store_event evs = true.

(** The configuration, the enable switch and the thread are the same, no
    thread was started, and the watcher flag was not switched on. *)
Definition keeps_control (s s' : reporter) : Prop :=
  html s' = html s ∧ _smtp s' = _smtp s ∧ _ftp s' = _ftp s ∧
  _enabled s' = _enabled s ∧
  offline_report_limit s' = offline_report_limit s ∧
  _watcher s' = _watcher s ∧
  (_watcher_enabled s' = true → _watcher_enabled s = true) ∧
  thread_starts (events s') = thread_starts (events s).

(** [s'] is [s] with channel events appended and, possibly, the watcher
    flag cleared; nothing else. *)
Definition channel_frame (s s' : reporter) : Prop :=
  ∃ evs (stopped : bool),
    s' = set_events (events s ++ evs)
           (if stopped then set_watcher_enabled false s else s) ∧
    forallb channel_event evs = true.

(** Events the watcher thread adds while it does not purge. *)
Definition thread_event (e : event) : bool :=
  channel_event e || bool_decide (e = Sleep).

(** However [m] ends, by returning or by raising, the state it ends in is
    related by [R] to the state it started from. *)
Definition preserves {A} (R : relation reporter) (m : M A) : Prop :=
  ∀ s, R s (final (m s)).

(** ** Answers of the FTP server to a live attempt *)


(** The first exception raised after the login, if any. *)
Definition ftp_live_error (w : ftp_world) : option exn :=
  match ftp_cwd w with
  | Some e => Some e
  | None => match ftp_nlst w 0 with
            | inl e => Some e
            | inr _ => ftp_storlines w 0
            end
  end.

(** The first exception among the listings and uploads numbered [idx],
    in the order the bulk loop meets them. *)
Fixpoint first_upload_error (w : ftp_world) (idx : list nat) : option exn :=
  match idx with
  | [] => None
  | i :: rest =>
      match ftp_nlst w i with
      | inl e => Some e
      | inr _ => match ftp_storlines w i with
                 | Some e => Some e
                 | None => first_upload_error w rest
                 end
      end
  end.

(** The first exception raised after the login during a bulk delivery of
    [n] reports, if any. *)
Definition ftp_bulk_error (w : ftp_world) (n : nat) : option exn :=
  match ftp_cwd w with
  | Some e => Some e
  | None => first_upload_error w (seq 0 n)
  end.

(** The text [_smtp_send_offline_reports] builds from the stored texts. *)
Definition bulk_body (contents : list string) : string :=
  fold_left (fun body text => body +:+ text +:+ separator) contents
    ("Here is a list of crash reports that were stored offline."
     +:+ String "010" "" +:+ separator).

(** ** The table of local variables in the plain-text [body()] *)









(** ** Proof automation *)

(** Brings a state built by nested setters to one record with a flat
    list of events. *)
Ltac norm_state :=
  unfold add_event, set_events, set_report_dir; simpl;
  rewrite <- ?app_assoc; simpl.

(** * Properties *)

(** ** The listing of the report directory *)

Lemma elem_of_list_reports (d : gmap string string) (x : string) :
  x ∈ sorted (glob_crashreport d) ↔
  is_Some (d !! x) ∧ String.prefix "crashreport" x = true.
Proof.
  unfold sorted, glob_crashreport.
  rewrite merge_sort_Permutation, list_elem_of_filter, list_elem_of_fmap.
  split.
  - intros [Hp [[k v] [-> Hkv]]]. apply elem_of_map_to_list in Hkv.
    simpl in *. eauto.
  - intros [[v Hv] Hp]. split; [done|].
    exists (x, v). split; [done|]. by apply elem_of_map_to_list.
Qed.

Lemma NoDup_list_reports (d : gmap string string) :
  NoDup (sorted (glob_crashreport d)).
Proof.
  unfold sorted, glob_crashreport.
  rewrite merge_sort_Permutation.
  apply NoDup_filter, NoDup_fst_map_to_list.
Qed.

Lemma list_reports_nil (d : gmap string string) :
  sorted (glob_crashreport d) = [] ↔
  ∀ x, is_Some (d !! x) → String.prefix "crashreport" x = false.
Proof.
  split.
  - intros Hnil x Hx. destruct (String.prefix "crashreport" x) eqn:Hp; [|done].
    assert (x ∈ sorted (glob_crashreport d)) as Hin
      by (apply elem_of_list_reports; done).
    rewrite Hnil in Hin. by apply elem_of_nil in Hin.
  - intros Hall. apply elem_of_nil_inv. intros x Hin.
    apply elem_of_list_reports in Hin as [Hx Hp].
    rewrite (Hall x Hx) in Hp. done.
Qed.

(** A duplicate-free list whose only possible element is [x], and which
    has [x], is [[x]]. *)
Lemma NoDup_only_one {A} (l : list A) (x : A) :
  NoDup l → x ∈ l → (∀ y, y ∈ l → y = x) → l = [x].
Proof.
  intros Hnd Hx Hall. destruct l as [|a l]; [by apply elem_of_nil in Hx|].
  assert (a = x) as -> by (apply Hall; left).
  f_equal. apply elem_of_nil_inv. intros y Hy.
  apply NoDup_cons in Hnd as [Hnotin _].
  assert (y = x) as -> by (apply Hall; by right). done.
Qed.

Lemma report_template_prefix (n : Z) :
  String.prefix "crashreport" (report_template n) = true.
Proof. unfold report_template. simpl. by rewrite String.prefix_correct; simpl;
  destruct (fmt_02d n +:+ ".txt"). Qed.

Lemma list_reports_first_write (d : gmap string string) (body : string) :
  sorted (glob_crashreport d) = [] →
  sorted (glob_crashreport (<[report_template 1 := body]> d)) = [report_template 1].
Proof.
  intros Hnil. apply NoDup_only_one.
  - apply NoDup_list_reports.
  - apply elem_of_list_reports. split; [|apply report_template_prefix].
    rewrite lookup_insert_eq. eauto.
  - intros y Hy. apply elem_of_list_reports in Hy as [Hy Hp].
    destruct (decide (y = report_template 1)) as [|Hne]; [done|].
    rewrite lookup_insert_ne in Hy by done.
    rewrite list_reports_nil in Hnil. rewrite (Hnil y Hy) in Hp. done.
Qed.

Lemma lookup_remove_all (l : list string) (d : gmap string string) (x : string) :
  remove_all l d !! x = if decide (x ∈ l) then None else d !! x.
Proof.
  revert d. induction l as [|a l IH]; intros d; simpl.
  - destruct (decide (x ∈ [])) as [H|_]; [inversion H | done].
  - rewrite IH. destruct (decide (x ∈ l)) as [Hin|Hnin].
    + rewrite decide_True by (by right). done.
    + destruct (decide (x = a)) as [->|Hne].
      * rewrite decide_True by (by left). apply lookup_delete_eq.
      * rewrite decide_False by (rewrite elem_of_cons; tauto).
        by apply lookup_delete_ne.
Qed.

Lemma list_reports_remove_all (d : gmap string string) :
  sorted (glob_crashreport (remove_all (sorted (glob_crashreport d)) d)) = [].
Proof.
  apply list_reports_nil. intros x Hx.
  rewrite lookup_remove_all in Hx.
  destruct (decide (x ∈ sorted (glob_crashreport d))) as [_|Hin];
    [by destruct Hx|].
  destruct (String.prefix "crashreport" x) eqn:Hp; [|done].
  exfalso. apply Hin, elem_of_list_reports. done.
Qed.

(** Removing, one after the other, distinct files that all exist never
    raises. *)
Lemma for_each_os_remove (l : list string) :
  ∀ s, NoDup l → (∀ x, x ∈ l → is_Some (report_dir s !! x)) →
       for_each l os_remove s =
       Ret tt (set_events (events s ++ (FsRemove <$> l))
                 (set_report_dir (remove_all l (report_dir s)) s)).
Proof.
  induction l as [|x l IH]; intros s Hnd Hin; simpl.
  - unfold ret. f_equal. destruct s; unfold set_events, set_report_dir; simpl.
    by rewrite app_nil_r.
  - apply NoDup_cons in Hnd as [Hx Hnd].
    unfold bind, os_remove at 1.
    destruct (Hin x) as [c Hc]; [by left|]. rewrite Hc.
    rewrite IH; [|done|].
    + f_equal. destruct s; unfold add_event, set_events, set_report_dir; simpl.
      by rewrite <- app_assoc.
    + intros y Hy. simpl. rewrite lookup_delete_ne by (intros ->; done).
      apply Hin. by right.
Qed.

Lemma delete_offline_reports_spec (s : reporter) :
  delete_offline_reports s =
  Ret tt (set_events (events s ++ (FsRemove <$> list_reports s))
            (set_report_dir (remove_all (list_reports s) (report_dir s)) s)).
Proof.
  unfold delete_offline_reports, bind, _get_offline_reports, gets.
  apply for_each_os_remove.
  - apply NoDup_list_reports.
  - intros x Hx. by apply elem_of_list_reports in Hx as [? _].
Qed.

Lemma save_on_first_report_raises (s : reporter) (body : string) :
  list_reports s = [report_template 1] →
  _save_report body s = Raise ValueError s.
Proof.
  unfold list_reports. intros Hl.
  unfold _save_report, bind, _get_offline_reports, gets. rewrite Hl.
  change (rev [report_template 1]) with [report_template 1].
  unfold for_each, bind.
  assert (int (last2 (report_template 1)) = None) as -> by (vm_compute; reflexivity).
  reflexivity.
Qed.

Lemma save_report_on_no_reports (s : reporter) (body : string) :
  list_reports s = [] →
  _save_report body s =
  Ret tt (add_event (FsWrite (report_template 1))
            (set_report_dir (<[report_template 1 := body]> (report_dir s)) s)).
Proof.
  unfold list_reports. intros Hl.
  unfold _save_report, bind, _get_offline_reports, gets. rewrite Hl.
  reflexivity.
Qed.

Lemma run_op_at_most_first (o : store_op) (s : reporter) :
  at_most_first s → at_most_first (final (run_op o s)).
Proof.
  intros Hinv. destruct o as [body|]; simpl.
  - destruct Hinv as [Hnil|Hone].
    + rewrite save_report_on_no_reports by done. right. simpl.
      unfold list_reports in *. destruct s; simpl in *.
      by apply list_reports_first_write.
    + rewrite save_on_first_report_raises by done. by right.
  - rewrite delete_offline_reports_spec. left. simpl.
    unfold list_reports. destruct s; simpl. apply list_reports_remove_all.
Qed.

Lemma run_ops_at_most_first (ops : list store_op) :
  ∀ s, at_most_first s → at_most_first (run_ops ops s).
Proof.
  induction ops as [|o ops IH]; intros s Hinv; simpl; [done|].
  apply IH. by apply run_op_at_most_first.
Qed.

(** ** The report store *)

(** C7. On a store without reports [_save_report] copies and removes
    nothing: its only file operation is writing the new text as
    [crashreport01.txt], after which the store lists exactly that report
    and every other file of the directory is as before. *)
Theorem save_on_empty_store (s : reporter) (body : string) :
  list_reports s = [] →
  ∃ s', _save_report body s = Ret tt s' ∧
        events s' = events s ++ [FsWrite (report_template 1)] ∧
        list_reports s' = [report_template 1] ∧
        report_dir s' !! report_template 1 = Some body ∧
        ∀ x, x ≠ report_template 1 → report_dir s' !! x = report_dir s !! x.
Proof.
  intros Hnil. eexists. split; [by apply save_report_on_no_reports|].
  unfold list_reports in *. destruct s; simpl in *.
  split; [done|]. split; [by apply list_reports_first_write|].
  split; [apply lookup_insert_eq|].
  intros x Hx. by apply lookup_insert_ne.
Qed.

Lemma save_on_empty_store_witness :
  list_reports (fresh_reporter 10) = [] ∧
  ∃ s', _save_report "r1" (fresh_reporter 10) = Ret tt s' ∧
        events s' = events (fresh_reporter 10) ++ [FsWrite (report_template 1)] ∧
        list_reports s' = [report_template 1] ∧
        report_dir s' !! report_template 1 = Some "r1" ∧
        ∀ x, x ≠ report_template 1 →
             report_dir s' !! x = report_dir (fresh_reporter 10) !! x.
Proof.
  split; [reflexivity|].
  apply (save_on_empty_store (fresh_reporter 10) "r1"). reflexivity.
Defined.

(** C8. [delete_offline_reports] returns without raising and leaves no
    report; called again on the result it returns again, changes nothing
    and the store is still without reports. *)
Theorem purge_all_idempotent (s : reporter) :
  ∃ s1, delete_offline_reports s = Ret tt s1 ∧
        list_reports s1 = [] ∧
        delete_offline_reports s1 = Ret tt s1.
Proof.
  eexists. split; [apply delete_offline_reports_spec|].
  assert (list_reports
            (set_events (events s ++ (FsRemove <$> list_reports s))
               (set_report_dir (remove_all (list_reports s) (report_dir s)) s))
          = []) as Hnil.
  { unfold list_reports. destruct s; simpl. apply list_reports_remove_all. }
  split; [done|].
  rewrite delete_offline_reports_spec, Hnil. simpl.
  f_equal. destruct s; unfold set_events, set_report_dir; simpl.
  by rewrite app_nil_r.
Qed.

(** C5. Starting from a store without reports, after any sequence of
    [_save_report] and [delete_offline_reports] calls (a call that raises
    leaves the directory as it was when the exception left it) the listed
    reports are exactly [crashreport01.txt .. crashreportNN.txt] for some
    count [NN]: the ordinals are [1..count] without a gap. *)
Theorem ordinals_contiguous (ops : list store_op) (s : reporter) :
  list_reports s = [] →
  ∃ count : nat,
    list_reports (run_ops ops s) =
    (fun i => report_template (Z.of_nat i)) <$> seq 1 count.
Proof.
  intros Hnil.
  destruct (run_ops_at_most_first ops s) as [H|H]; [by left| |].
  - exists 0%nat. by rewrite H.
  - exists 1%nat. by rewrite H.
Qed.

Lemma ordinals_contiguous_witness :
  list_reports (fresh_reporter 3) = [] ∧
  ∃ count : nat,
    list_reports (run_ops [Save "r1"; PurgeAll; Save "r2"; Save "r3"]
                    (fresh_reporter 3)) =
    (fun i => report_template (Z.of_nat i)) <$> seq 1 count.
Proof.
  split; [reflexivity|].
  apply (ordinals_contiguous [Save "r1"; PurgeAll; Save "r2"; Save "r3"]
           (fresh_reporter 3)).
  reflexivity.
Defined.

(** *** Why the rotation never runs *)

Lemma list_ascii_of_string_app (a b : string) :
  list_ascii_of_string (a +:+ b) = list_ascii_of_string a ++ list_ascii_of_string b.
Proof. induction a as [|c a IH]; simpl; [done|]. by rewrite IH. Qed.

(** The last two characters of a name with the extension [.txt] are never
    the ordinal. *)
Lemma last2_txt (a : string) : last2 (a +:+ ".txt") = "xt".
Proof.
  unfold last2. rewrite list_ascii_of_string_app, length_app. simpl.
  replace (length (list_ascii_of_string a) + 4 - 2)%nat
    with (length (list_ascii_of_string a) + 2)%nat by lia.
  rewrite drop_app_add. reflexivity.
Qed.

Lemma int_last2_report_template (n : Z) : int (last2 (report_template n)) = None.
Proof.
  unfold report_template.
  assert (∀ a b c : string, a +:+ (b +:+ c) = (a +:+ b) +:+ c) as Hassoc.
  { intros a b c. induction a as [|ch a IH]; [reflexivity|].
    change (String ch (a +:+ (b +:+ c)) = String ch ((a +:+ b) +:+ c)).
    by rewrite IH. }
  rewrite Hassoc, last2_txt.
  vm_compute. reflexivity.
Qed.

(** Whatever the limit, a save on a non-empty store whose reports carry
    the names the reporter gives them raises [ValueError] at the first
    turn of the shift loop and leaves everything as it was. *)
Lemma save_on_nonempty_store_raises (s : reporter) (body : string) :
  list_reports s ≠ [] →
  (∀ x, x ∈ list_reports s → ∃ n, x = report_template n) →
  _save_report body s = Raise ValueError s.
Proof.
  unfold list_reports. intros Hne Hnames.
  unfold _save_report, bind, _get_offline_reports, gets.
  destruct (sorted (glob_crashreport (report_dir s))) as [|r l] eqn:Hl; [done|].
  destruct (rev (r :: l)) as [|y l'] eqn:Hrev.
  { apply (f_equal (@length string)) in Hrev. rewrite length_rev in Hrev.
    discriminate Hrev. }
  assert (y ∈ r :: l) as Hy.
  { apply list_elem_of_In, in_rev. rewrite Hrev. by left. }
  destruct (Hnames y Hy) as [n ->].
  simpl. unfold bind. rewrite int_last2_report_template. reflexivity.
Qed.

(** C1 (what the code does on Scenario A). With [offline_report_limit = 3]
    and an empty directory, the first save writes [crashreport01.txt]; each
    later save raises [ValueError] at [int(report[-2:])], because the last
    two characters of [crashreport01.txt] are [xt], and changes nothing. The
    store ends with one report whose text is still ["r1"]. *)
Theorem scenario_A_saves_after_first_raise :
  let s0 := fresh_reporter 3 in
  let s1 := final (_save_report "r1" s0) in
  last2 (report_template 1) = "xt" ∧
  int "xt" = None ∧
  _save_report "r1" s0 = Ret tt s1 ∧
  _save_report "r2" s1 = Raise ValueError s1 ∧
  _save_report "r3" s1 = Raise ValueError s1 ∧
  _save_report "r4" s1 = Raise ValueError s1 ∧
  run_ops [Save "r1"; Save "r2"; Save "r3"; Save "r4"] s0 = s1 ∧
  list_reports s1 = ["crashreport01.txt"] ∧
  report_dir s1 !! "crashreport01.txt" = Some "r1".
Proof. vm_compute. repeat split; reflexivity. Qed.

(** ** Channels *)

Lemma stop_watcher_eq (s : reporter) :
  stop_watcher s =
  Ret tt (match _watcher s with
          | Some _ => add_event (LogInfo "CrashReporter: Stopping watcher.")
                        (set_watcher_enabled false s)
          | None => s
          end).
Proof. unfold stop_watcher, bind, gets. by destruct (_watcher s). Qed.

Lemma sendmail_refused (s : reporter) (e : exn) (subj body : string) :
  is_Some (_smtp s) → is_Exception e = true →
  _sendmail (Some e) subj body [] s =
  Ret false (add_event (LogError "CrashReporter: " e) s).
Proof.
  intros [i Hi] He. unfold _sendmail, bind, gets. rewrite Hi. simpl.
  rewrite He. reflexivity.
Qed.

Lemma sendmail_sent (s : reporter) (subj body : string) :
  is_Some (_smtp s) →
  _sendmail None subj body [] s = Ret true (add_event (MailSent subj body) s).
Proof. intros [i Hi]. unfold _sendmail, bind, gets. rewrite Hi. reflexivity. Qed.

Lemma ftp_submit_refused (s : reporter) (w : ftp_world) (e : exn) (body : string) :
  is_Some (_ftp s) → ftp_session_error w = Some e → ftplib_all_errors e = true →
  _ftp_submit w body s =
  Ret false (final (stop_watcher (add_event (LogError "" e) s))).
Proof.
  intros [i Hi] Hw He. unfold _ftp_submit, bind, gets. rewrite Hi, Hw, He.
  unfold log_error, modify. rewrite stop_watcher_eq. reflexivity.
Qed.

Lemma ftp_bulk_refused (s : reporter) (w : ftp_world) (e : exn) :
  is_Some (_ftp s) → ftp_session_error w = Some e → ftplib_all_errors e = true →
  _ftp_send_offline_reports w s = Ret false (add_event (LogError "" e) s).
Proof.
  intros [i Hi] Hw He. unfold _ftp_send_offline_reports, bind, gets.
  rewrite Hi, Hw, He. reflexivity.
Qed.

(** X22. An exception raised inside a channel's [try]
    block and named by its [except] clause is logged and becomes the
    result [False]: for mail that is any [Exception] of the whole session,
    for the two FTP methods any of [ftplib.all_errors] raised by [connect]
    or [login]. What an FTP server raises after the login ([cwd] here)
    leaves [_ftp_submit] and [_ftp_send_offline_reports] as an exception. *)
Theorem session_errors_become_false (c : channel) (s : reporter) (e : exn) :
  configured c s →
  session_error c = Some e →
  handled c e = true →
  (∃ s' prefix, attempt_send c s = Ret false s' ∧
                LogError prefix e ∈ events s' ∧
                report_dir s' = report_dir s) ∧
  (∀ w body e', is_Some (_ftp s) → ftp_session_error w = None →
                ftp_cwd w = Some e' →
                (∃ s', _ftp_submit w body s = Raise e' s') ∧
                (∃ s', _ftp_send_offline_reports w s = Raise e' s')).
Proof.
  intros Hc Herr Hh. split.
  - destruct c as [w subj body|w body|w]; simpl in *.
    + subst w. rewrite sendmail_refused by done.
      do 2 eexists. split; [done|]. split; [|done].
      simpl. apply elem_of_app. right. by left.
    + rewrite (ftp_submit_refused s w e) by done.
      rewrite stop_watcher_eq. eexists. exists "". split; [done|].
      simpl. destruct (_watcher s); simpl.
      * split; [|done]. rewrite !elem_of_app. left. right. by left.
      * split; [|done]. rewrite elem_of_app. right. by left.
    + rewrite (ftp_bulk_refused s w e) by done.
      do 2 eexists. split; [done|]. split; [|done].
      simpl. apply elem_of_app. right. by left.
  - intros w body e' [i Hi] Hw Hcwd. split.
    + unfold _ftp_submit, bind, gets. rewrite Hi, Hw. simpl.
      rewrite Hcwd. simpl. eauto.
    + unfold _ftp_send_offline_reports, bind, gets. rewrite Hi, Hw.
      rewrite Hcwd. simpl. eauto.
Qed.

Lemma session_errors_become_false_witness :
  configured (Transfer ftp_down "boom") ftp_reporter ∧
  ∃ s' prefix, attempt_send (Transfer ftp_down "boom") ftp_reporter = Ret false s' ∧
               LogError prefix SocketError ∈ events s' ∧
               report_dir s' = report_dir ftp_reporter.
Proof.
  assert (configured (Transfer ftp_down "boom") ftp_reporter) as Hc
    by (simpl; eauto).
  split; [exact Hc|].
  exact (proj1 (session_errors_become_false (Transfer ftp_down "boom")
                  ftp_reporter SocketError Hc eq_refl eq_refl)).
Defined.

(** An instance: the server accepts connection and login and
    then answers [cwd] with an FTP error, one of [ftplib.all_errors]: the
    live FTP attempt does not return [False], the error reaches the
    caller. *)
Lemma ftp_error_after_login_propagates :
  ftplib_all_errors FTPError = true ∧
  ftp_cwd ftp_no_such_dir = Some FTPError ∧
  (∃ s', attempt_send (Transfer ftp_no_such_dir "boom") ftp_reporter
         = Raise FTPError s') ∧
  ¬ (∃ b s', attempt_send (Transfer ftp_no_such_dir "boom") ftp_reporter
             = Ret b s').
Proof.
  split; [done|]. split; [done|]. split.
  - eexists. vm_compute. reflexivity.
  - intros (b & s' & H). vm_compute in H. discriminate H.
Qed.

(** A watcher that wakes up with its flag cleared leaves the loop without
    any delivery attempt and without purging. *)
Lemma watcher_stops_when_flag_cleared (s : reporter) (c : cycle) (rest : list cycle) :
  _watcher_enabled s = false →
  during_sleep c = [] →
  _watcher_thread (c :: rest) s =
  Ret Stopped (add_event (LogInfo "CrashReporter: Watcher stopped.")
                 (add_event Sleep s)).
Proof.
  intros Hen Hsleep. simpl. rewrite Hsleep.
  unfold bind, modify, gets; simpl. rewrite Hen. reflexivity.
Qed.

(** C10. When [connect] or [login] fails during the live FTP attempt,
    [_ftp_submit] logs the error, runs [stop_watcher] and returns [False];
    if a watcher thread exists its flag [_watcher_enabled] is cleared by
    that call, and the thread then stops at its next wake-up without
    trying any channel. *)
Theorem ftp_submit_failure_stops_watcher
    (s : reporter) (w : ftp_world) (body : string) (e : exn) :
  is_Some (_ftp s) →
  ftp_session_error w = Some e →
  ftplib_all_errors e = true →
  _ftp_submit w body s =
    (log_error "" e ;; stop_watcher ;; ret false) s ∧
  ∃ s', _ftp_submit w body s = Ret false s' ∧
        (_watcher s = Some tt →
         _watcher_enabled s' = false ∧
         events s' = events s ++ [LogError "" e;
                                  LogInfo "CrashReporter: Stopping watcher."] ∧
         ∀ c rest, during_sleep c = [] →
                   _watcher_thread (c :: rest) s' =
                   Ret Stopped
                     (add_event (LogInfo "CrashReporter: Watcher stopped.")
                        (add_event Sleep s'))).
Proof.
  intros Hftp Hw He. rewrite (ftp_submit_refused s w e) by done.
  split.
  - unfold bind, log_error, modify. rewrite !stop_watcher_eq. reflexivity.
  - eexists. split; [done|]. intros Hwatcher.
    rewrite stop_watcher_eq. simpl. rewrite Hwatcher. simpl.
    split; [done|]. split; [by rewrite <- app_assoc|].
    intros c rest Hsleep. by apply watcher_stops_when_flag_cleared.
Qed.

Lemma ftp_submit_failure_stops_watcher_witness :
  is_Some (_ftp watching_reporter) ∧
  _watcher watching_reporter = Some tt ∧
  _watcher_enabled watching_reporter = true ∧
  ∃ s', _ftp_submit ftp_down "boom" watching_reporter = Ret false s' ∧
        _watcher_enabled s' = false ∧
        events s' = events watching_reporter ++
                    [LogError "" SocketError;
                     LogInfo "CrashReporter: Stopping watcher."].
Proof.
  assert (is_Some (_ftp watching_reporter)) as Hc by (simpl; eauto).
  split; [exact Hc|]. split; [reflexivity|]. split; [reflexivity|].
  destruct (proj2 (ftp_submit_failure_stops_watcher watching_reporter ftp_down
                     "boom" SocketError Hc eq_refl eq_refl))
    as (s' & Heq & Hrest).
  exists s'. split; [exact Heq|].
  destruct (Hrest eq_refl) as (Hflag & Hev & _). split; [exact Hflag | exact Hev].
Defined.

(** ** Leaving the scope *)

(** C4 (what the code does). With reporting enabled and no exception,
    [__exit__] returns with the reporter exactly as it was: no channel is
    tried, nothing is saved, and no record is logged either. *)
Theorem exit_without_exception_is_silent
    (s : reporter) (sw : smtp_world) (fw : ftp_world) :
  _enabled s = true →
  __exit__ None sw fw s = Ret tt s.
Proof. intros H. unfold __exit__, bind, gets. by rewrite H. Qed.

Lemma exit_without_exception_is_silent_witness :
  _enabled mail_reporter = true ∧
  __exit__ None None (ftp_up 0) mail_reporter = Ret tt mail_reporter ∧
  events mail_reporter = [].
Proof.
  split; [reflexivity|]. split; [|reflexivity].
  apply (exit_without_exception_is_silent mail_reporter None (ftp_up 0)).
  reflexivity.
Defined.

(** The record "No crashes detected." belongs to the [else] of
    [if self._enabled]: it is logged exactly when the reporter is
    disabled, whether or not an exception left the scope. *)
Lemma no_crashes_record_when_disabled
    (s : reporter) (etype : option exc_info) (sw : smtp_world) (fw : ftp_world) :
  _enabled s = false →
  __exit__ etype sw fw s =
  Ret tt (add_event (LogInfo "CrashReporter: No crashes detected.") s).
Proof. intros H. unfold __exit__, bind, gets. by rewrite H. Qed.

(** ** The watcher thread *)

Lemma smtp_bulk_on_empty_store (s : reporter) (w : smtp_world) :
  list_reports s = [] →
  _smtp_send_offline_reports w s = Ret PyNone s.
Proof.
  unfold list_reports. intros Hnil.
  unfold _smtp_send_offline_reports, bind, _get_offline_reports, gets.
  by rewrite Hnil.
Qed.

(** One iteration in which the main thread leaves the reporter alone and
    the flag is still set. *)
Lemma watcher_thread_quiet_cycle (s : reporter) (c : cycle) (rest : list cycle) :
  _watcher_enabled s = true →
  during_sleep c = [] →
  _watcher_thread (c :: rest) s =
  match attempt_offline_reports c (add_event Sleep s) with
  | Ret true s' => after_loop true s'
  | Ret false s' => _watcher_thread rest s'
  | Raise e s' => Raise e s'
  end.
Proof.
  intros Hen Hsleep. simpl. rewrite Hsleep.
  unfold bind, modify, gets; simpl. rewrite Hen; simpl.
  destruct (attempt_offline_reports c (add_event Sleep s)) as [[|] s'|e s'];
    reflexivity.
Qed.

(** C9. With no stored report [_smtp_send_offline_reports] returns [None];
    [False | None] is a [TypeError]; so a cycle of the watcher that runs
    with the mail channel set up and an empty store ends the thread with
    that exception, right after the "Attempting" record and before the FTP
    channel is tried. *)
Theorem watcher_cycle_on_empty_store_raises
    (s : reporter) (c : cycle) (rest : list cycle) :
  _watcher_enabled s = true →
  is_Some (_smtp s) →
  list_reports s = [] →
  during_sleep c = [] →
  _smtp_send_offline_reports (cycle_smtp c) s = Ret PyNone s ∧
  ior false PyNone = inl TypeError ∧
  _watcher_thread (c :: rest) s =
  Raise TypeError
    (add_event (LogInfo "CrashReporter: Attempting to send offline reports.")
       (add_event Sleep s)).
Proof.
  intros Hen [i Hi] Hnil Hsleep.
  split; [by apply smtp_bulk_on_empty_store|]. split; [done|].
  rewrite watcher_thread_quiet_cycle by done.
  unfold attempt_offline_reports, bind, log_info, modify, gets; simpl.
  rewrite Hi; simpl.
  rewrite smtp_bulk_on_empty_store by done. reflexivity.
Qed.

Lemma watcher_cycle_on_empty_store_raises_witness :
  _watcher_enabled emptied_reporter = true ∧
  is_Some (_smtp emptied_reporter) ∧
  list_reports emptied_reporter = [] ∧
  _watcher_thread [quiet_cycle None ftp_down] emptied_reporter =
  Raise TypeError
    (add_event (LogInfo "CrashReporter: Attempting to send offline reports.")
       (add_event Sleep emptied_reporter)).
Proof.
  assert (is_Some (_smtp emptied_reporter)) as Hc by (simpl; eauto).
  split; [reflexivity|]. split; [exact Hc|]. split; [reflexivity|].
  exact (proj2 (proj2 (watcher_cycle_on_empty_store_raises emptied_reporter
                         (quiet_cycle None ftp_down) [] eq_refl Hc eq_refl eq_refl))).
Defined.

(** The empty store is reachable while the thread is alive: a reporter
    starts its watcher over one stored report, and the main thread calls
    [delete_offline_reports] during the first sleep. *)
Example watcher_dies_after_delete_offline_reports :
  ∃ s', _watcher_thread
          [{| during_sleep := [CallDeleteOfflineReports];
              cycle_smtp := None; cycle_ftp := ftp_down |}]
          (final (setup_smtp example_smtp
                    (final (__init__ (Some {[ "crashreport01.txt" := "old" ]})
                              10 false))))
        = Raise TypeError s'.
Proof. eexists. vm_compute. reflexivity. Qed.

(** ** Leaving the scope after a failure *)

Lemma start_watcher_on_reports (s : reporter) :
  list_reports s ≠ [] →
  ∃ s', start_watcher s = Ret tt s' ∧ watcher_running s' ∧
        report_dir s' = report_dir s.
Proof.
  unfold list_reports. intros Hne.
  unfold start_watcher, bind, _get_offline_reports, gets.
  destruct (sorted (glob_crashreport (report_dir s))); [done|].
  eexists. split; [reflexivity|]. by split.
Qed.

(** The channel phase of [__exit__] when every configured channel
    refuses: the report directory and the thread are untouched and the
    flag can only have been cleared. *)
Lemma exit_when_channels_refuse
    (s : reporter) (exc : exc_info) (sw : smtp_world) (fw : ftp_world) :
  _enabled s = true →
  (is_Some (_smtp s) → smtp_refused sw = true) →
  (is_Some (_ftp s) → ftp_refused fw = true) →
  ∃ s1, __exit__ (Some exc) sw fw s = _save_report (exc_body exc) s1 ∧
        report_dir s1 = report_dir s ∧
        _watcher s1 = _watcher s ∧
        (_watcher_enabled s1 = true → _watcher_enabled s = true).
Proof.
  intros Hen Hsmtp Hftp.
  assert (∀ e, sw = Some e → is_Some (_smtp s) → is_Exception e = true) as Hsw.
  { intros e -> Hs. by apply Hsmtp. }
  unfold ftp_refused in Hftp.
  unfold __exit__, bind, gets. rewrite Hen.
  destruct (_smtp s) as [mi|] eqn:Es; destruct (_ftp s) as [fi|] eqn:Ef.
  - destruct sw as [e|]; [|by discriminate Hsmtp].
    destruct (ftp_session_error fw) as [e'|] eqn:Hw; [|by discriminate Hftp].
    rewrite sendmail_refused by (rewrite ?Es; eauto). simpl. rewrite Ef.
    rewrite (ftp_submit_refused _ fw e') by (simpl; rewrite ?Ef; eauto).
    rewrite stop_watcher_eq. simpl.
    eexists. split; [reflexivity|]. destruct (_watcher s) eqn:Ew; simpl; done.
  - destruct sw as [e|]; [|by discriminate Hsmtp].
    rewrite sendmail_refused by (rewrite ?Es; eauto). simpl. rewrite Ef. simpl.
    eexists. split; [reflexivity|]. done.
  - destruct (ftp_session_error fw) as [e'|] eqn:Hw; [|by discriminate Hftp].
    simpl. rewrite Ef.
    rewrite (ftp_submit_refused _ fw e') by (simpl; rewrite ?Ef; eauto).
    rewrite stop_watcher_eq. simpl.
    eexists. split; [reflexivity|]. destruct (_watcher s) eqn:Ew; simpl; done.
  - simpl. rewrite Ef. simpl. eexists. split; [reflexivity|]. done.
Qed.

(** C2 (as the code has it). An exception leaves the scope, reporting is
    enabled, the store is empty and every configured channel refuses the
    live attempt. Then [__exit__] returns with exactly one stored report,
    [crashreport01.txt], holding the report text. It does not start the
    watcher: no thread is created, and the watcher runs afterwards only if
    it ran before. The watcher is started by the next reporter constructed
    over that directory. *)
Theorem exit_saves_report_without_starting_watcher
    (s : reporter) (exc : exc_info) (sw : smtp_world) (fw : ftp_world) :
  _enabled s = true →
  list_reports s = [] →
  (is_Some (_smtp s) → smtp_refused sw = true) →
  (is_Some (_ftp s) → ftp_refused fw = true) →
  ∃ s', __exit__ (Some exc) sw fw s = Ret tt s' ∧
        list_reports s' = [report_template 1] ∧
        report_dir s' !! report_template 1 = Some (exc_body exc) ∧
        _watcher s' = _watcher s ∧
        (watcher_running s' → watcher_running s) ∧
        ∀ limit use_html,
          ∃ s'', __init__ (Some (report_dir s')) limit use_html = Ret tt s'' ∧
                 watcher_running s''.
Proof.
  intros Hen Hnil Hsmtp Hftp.
  destruct (exit_when_channels_refuse s exc sw fw Hen Hsmtp Hftp)
    as (s1 & -> & Hd & Hw & Hflag).
  assert (list_reports s1 = []) as Hnil1 by (unfold list_reports; by rewrite Hd).
  rewrite save_report_on_no_reports by done.
  eexists. split; [reflexivity|]. simpl.
  assert (sorted (glob_crashreport
            (<[report_template 1 := exc_body exc]> (report_dir s1)))
          = [report_template 1]) as Hone
    by (apply list_reports_first_write; exact Hnil1).
  split; [exact Hone|]. split; [apply lookup_insert_eq|]. split; [done|].
  split.
  - unfold watcher_running. simpl. rewrite Hw. intros [? ?]. auto.
  - intros limit use_html. unfold __init__.
    match goal with |- ∃ _, start_watcher ?self = _ ∧ _ =>
      destruct (start_watcher_on_reports self) as (s'' & Hs & Hrun & _)
    end.
    + unfold list_reports. simpl. rewrite Hone. done.
    + eauto.
Qed.

Lemma exit_saves_report_without_starting_watcher_witness :
  _enabled mail_reporter = true ∧
  list_reports mail_reporter = [] ∧
  ∃ s', __exit__ (Some {| exc_body := "boom" |}) (Some SocketError) ftp_down
          mail_reporter = Ret tt s' ∧
        list_reports s' = [report_template 1] ∧
        report_dir s' !! report_template 1 = Some "boom" ∧
        _watcher s' = _watcher mail_reporter ∧
        (watcher_running s' → watcher_running mail_reporter) ∧
        ∀ limit use_html,
          ∃ s'', __init__ (Some (report_dir s')) limit use_html = Ret tt s'' ∧
                 watcher_running s''.
Proof.
  split; [reflexivity|]. split; [reflexivity|].
  apply (exit_saves_report_without_starting_watcher mail_reporter
           {| exc_body := "boom" |} (Some SocketError) ftp_down).
  - reflexivity.
  - reflexivity.
  - intros _. reflexivity.
  - intros _. reflexivity.
Defined.

(** C2 (the claim fails). A fresh reporter with the mail channel set up,
    an empty store, and a mail server that cannot be reached: [__exit__]
    saves the report as [crashreport01.txt], and afterwards no watcher
    thread exists and the watcher flag is off. *)
Lemma exit_leaves_watcher_stopped :
  _enabled mail_reporter = true ∧
  list_reports mail_reporter = [] ∧
  _sendmail (Some SocketError) subject "boom" [] mail_reporter
    = Ret false (add_event (LogError "CrashReporter: " SocketError) mail_reporter) ∧
  ∃ s', __exit__ (Some {| exc_body := "boom" |}) (Some SocketError) ftp_down
          mail_reporter = Ret tt s' ∧
        list_reports s' = [report_template 1] ∧
        _watcher s' = None ∧
        _watcher_enabled s' = false ∧
        (ThreadStart ∉ events s') ∧
        ¬ watcher_running s'.
Proof.
  split; [reflexivity|]. split; [reflexivity|]. split; [reflexivity|].
  eexists. split; [vm_compute; reflexivity|].
  split; [vm_compute; reflexivity|]. split; [reflexivity|].
  split; [reflexivity|]. split.
  - simpl. rewrite !not_elem_of_cons. repeat split; try done.
    apply not_elem_of_nil.
  - intros [H _]. discriminate H.
Qed.

(** ** Convergence of the watcher *)

Lemma sleeps_app (a b : list event) : sleeps (a ++ b) = (sleeps a + sleeps b)%nat.
Proof. unfold sleeps. apply count_occ_app. Qed.

Lemma removals_app (a b : list event) : removals (a ++ b) = removals a ++ removals b.
Proof. unfold removals. apply omap_app. Qed.

Lemma removals_FsRemove (l : list string) : removals (FsRemove <$> l) = l.
Proof. induction l as [|x l IH]; simpl; [done|]. by f_equal. Qed.

Lemma append_reports_ok (l : list string) :
  ∀ (body : string) (s : reporter),
    (∀ x, x ∈ l → is_Some (report_dir s !! x)) →
    ∃ b, append_reports l body s = Ret b s.
Proof.
  induction l as [|x l IH]; intros body s Hin; simpl.
  - by eexists.
  - unfold bind, read_file. destruct (Hin x) as [c Hc]; [by left|].
    rewrite Hc. apply IH. intros y Hy. apply Hin. by right.
Qed.

Lemma smtp_bulk_outcome (s : reporter) (w : smtp_world) :
  is_Some (_smtp s) →
  list_reports s ≠ [] →
  smtp_ok w || smtp_refused w = true →
  ∃ evs, _smtp_send_offline_reports w s =
         Ret (PyBool (smtp_ok w)) (set_events (events s ++ evs) s) ∧
         sleeps evs = 0%nat ∧ removals evs = [].
Proof.
  unfold list_reports. intros Hs Hne Hw.
  unfold _smtp_send_offline_reports, bind, _get_offline_reports, gets.
  destruct (sorted (glob_crashreport (report_dir s))) as [|r l] eqn:Hl; [done|].
  match goal with |- context [append_reports ?l ?b s] =>
    destruct (append_reports_ok l b s) as [body ->]
  end.
  { intros x Hx. rewrite <- Hl in Hx.
    by apply elem_of_list_reports in Hx as [? _]. }
  destruct w as [e|]; simpl in *.
  - rewrite sendmail_refused by done. simpl.
    eexists. split; [norm_state; reflexivity|]. done.
  - rewrite sendmail_sent by done. simpl.
    eexists. split; [unfold log_info, modify; norm_state; reflexivity|]. done.
Qed.

Lemma upload_report_ok (w : ftp_world) (k n : nat) (x : string) (s : reporter) :
  is_Some (report_dir s !! x) →
  ftp_nlst w k = inr n →
  ftp_storlines w k = None →
  upload_report w (k, x) s =
  Ret tt (add_event (FtpStor (report_template (Z.of_nat n + 1))) s).
Proof.
  intros [c Hc] Hn Hst. unfold upload_report, bind, read_file, ftp_upload.
  simpl. rewrite Hc, Hn, Hst. reflexivity.
Qed.

Lemma for_each_upload (w : ftp_world) (l : list string) :
  ∀ (k : nat) (s : reporter),
    (∀ x, x ∈ l → is_Some (report_dir s !! x)) →
    forallb (fun i => match ftp_nlst w i, ftp_storlines w i with
                      | inr _, None => true
                      | _, _ => false
                      end) (seq k (length l)) = true →
    ∃ evs, for_each (zip (seq k (length l)) l) (upload_report w) s =
           Ret tt (set_events (events s ++ evs) s) ∧
           sleeps evs = 0%nat ∧ removals evs = [].
Proof.
  induction l as [|x l IH]; intros k s Hin Hok; simpl in *.
  - exists []. split; [|done]. unfold ret. f_equal.
    destruct s; norm_state. by rewrite app_nil_r.
  - apply andb_prop in Hok as [Hk Hok].
    destruct (ftp_nlst w k) as [|n] eqn:Hn; [done|].
    destruct (ftp_storlines w k) eqn:Hst; [done|].
    unfold bind at 1.
    rewrite (upload_report_ok w k n x s) by (try done; apply Hin; by left).
    destruct (IH (S k) (add_event (FtpStor (report_template (Z.of_nat n + 1))) s))
      as (evs & -> & Hs & Hr); [|done|].
    { intros y Hy. simpl. apply Hin. by right. }
    eexists. split; [norm_state; reflexivity|].
    split; [exact Hs | exact Hr].
Qed.

Lemma ftp_bulk_outcome (s : reporter) (w : ftp_world) :
  is_Some (_ftp s) →
  ftp_bulk_ok w (length (list_reports s)) || ftp_refused w = true →
  ∃ evs, _ftp_send_offline_reports w s =
         Ret (ftp_bulk_ok w (length (list_reports s)))
             (set_events (events s ++ evs) s) ∧
         sleeps evs = 0%nat ∧ removals evs = [].
Proof.
  intros [i Hi] Hw. unfold ftp_bulk_ok, ftp_refused in *.
  unfold _ftp_send_offline_reports, bind, gets. rewrite Hi.
  destruct (ftp_session_error w) as [e|] eqn:He.
  - simpl in Hw. rewrite Hw. simpl.
    eexists. split; [norm_state; reflexivity|]. done.
  - destruct (ftp_cwd w) as [e|]; [done|]. simpl.
    rewrite orb_false_r in Hw. rewrite Hw.
    unfold _get_offline_reports, gets.
    destruct (for_each_upload w (list_reports s) 0 s) as (evs & Hfe & Hs & Hr).
    { intros x Hx. by apply elem_of_list_reports in Hx as [? _]. }
    { exact Hw. }
    unfold list_reports in Hfe. rewrite Hfe. simpl.
    exists (evs ++ [LogInfo ("CrashReporter: Submission to " +:+ ftp_host i
                             +:+ " successful.")]).
    split; [norm_state; reflexivity|].
    rewrite sleeps_app, removals_app, Hs, Hr. done.
Qed.

(** One round of bulk deliveries in which every configured channel
    answers with a boolean: the result is the disjunction of the answers,
    and only records, mails and uploads are added to the events. *)
Lemma attempt_outcome (s : reporter) (c : cycle) :
  (is_Some (_smtp s) →
   list_reports s ≠ [] ∧ smtp_ok (cycle_smtp c) || smtp_refused (cycle_smtp c) = true) →
  (is_Some (_ftp s) →
   ftp_bulk_ok (cycle_ftp c) (length (list_reports s)) || ftp_refused (cycle_ftp c) = true) →
  ∃ evs, attempt_offline_reports c s =
         Ret (match _smtp s with Some _ => smtp_ok (cycle_smtp c) | None => false end
              || match _ftp s with
                 | Some _ => ftp_bulk_ok (cycle_ftp c) (length (list_reports s))
                 | None => false
                 end)
             (set_events (events s ++ evs) s) ∧
         sleeps evs = 0%nat ∧ removals evs = [].
Proof.
  intros Hsmtp Hftp.
  unfold attempt_offline_reports, bind, log_info, modify, gets. simpl.
  destruct (_smtp s) as [mi|] eqn:Es.
  - destruct Hsmtp as [Hne Hsw]; [eauto|].
    match goal with |- context [_smtp_send_offline_reports ?w ?st] =>
      destruct (smtp_bulk_outcome st w) as (evs1 & -> & Hs1 & Hr1)
    end; [simpl; rewrite Es; eauto | exact Hne | exact Hsw |].
    simpl. destruct (_ftp s) as [fi|] eqn:Ef.
    + match goal with |- context [_ftp_send_offline_reports ?w ?st] =>
        destruct (ftp_bulk_outcome st w) as (evs2 & -> & Hs2 & Hr2)
      end; [simpl; rewrite Ef; eauto | apply Hftp; eauto |].
      simpl.
      exists (LogInfo "CrashReporter: Attempting to send offline reports."
              :: evs1 ++ evs2).
      split; [norm_state; reflexivity|].
      change (LogInfo "CrashReporter: Attempting to send offline reports."
              :: evs1 ++ evs2)
        with ([LogInfo "CrashReporter: Attempting to send offline reports."]
              ++ evs1 ++ evs2).
      rewrite !sleeps_app, !removals_app, Hs1, Hs2, Hr1, Hr2. done.
    + simpl. rewrite orb_false_r.
      exists (LogInfo "CrashReporter: Attempting to send offline reports."
              :: evs1).
      split; [norm_state; reflexivity|].
      change (LogInfo "CrashReporter: Attempting to send offline reports."
              :: evs1)
        with ([LogInfo "CrashReporter: Attempting to send offline reports."]
              ++ evs1).
      rewrite !sleeps_app, !removals_app, Hs1, Hr1. done.
  - simpl. destruct (_ftp s) as [fi|] eqn:Ef.
    + match goal with |- context [_ftp_send_offline_reports ?w ?st] =>
        destruct (ftp_bulk_outcome st w) as (evs2 & -> & Hs2 & Hr2)
      end; [simpl; rewrite Ef; eauto | apply Hftp; eauto |].
      simpl.
      exists (LogInfo "CrashReporter: Attempting to send offline reports."
              :: evs2).
      split; [norm_state; reflexivity|].
      change (LogInfo "CrashReporter: Attempting to send offline reports."
              :: evs2)
        with ([LogInfo "CrashReporter: Attempting to send offline reports."]
              ++ evs2).
      rewrite !sleeps_app, !removals_app, Hs2, Hr2. done.
    + simpl. eexists. split; [norm_state; reflexivity|]. done.
Qed.

Lemma smtp_refused_not_ok (w : smtp_world) : smtp_refused w = true → smtp_ok w = false.
Proof. by destruct w. Qed.

Lemma ftp_refused_not_ok (w : ftp_world) (n : nat) :
  ftp_refused w = true → ftp_bulk_ok w n = false.
Proof.
  unfold ftp_refused, ftp_bulk_ok. by destruct (ftp_session_error w).
Qed.

Lemma attempt_when_cycle_fails (s : reporter) (c : cycle) :
  (is_Some (_smtp s) → list_reports s ≠ []) →
  cycle_fails s c = true →
  ∃ evs, attempt_offline_reports c s = Ret false (set_events (events s ++ evs) s) ∧
         sleeps evs = 0%nat ∧ removals evs = [].
Proof.
  intros Hne Hf. unfold cycle_fails in Hf. apply andb_prop in Hf as [Hm Hx].
  destruct (attempt_outcome s c) as (evs & Heq & Hq).
  - intros Hs. split; [by apply Hne|].
    destruct Hs as [i Hi]. rewrite Hi in Hm. rewrite Hm. apply orb_true_r.
  - intros [i Hi]. rewrite Hi in Hx. rewrite Hx. apply orb_true_r.
  - exists evs. split; [|exact Hq]. rewrite Heq. f_equal.
    destruct (_smtp s), (_ftp s);
      rewrite ?(smtp_refused_not_ok _ Hm), ?(ftp_refused_not_ok _ _ Hx); done.
Qed.

Lemma attempt_when_cycle_succeeds (s : reporter) (c : cycle) :
  (is_Some (_smtp s) → list_reports s ≠ []) →
  cycle_succeeds s (length (list_reports s)) c = true →
  ∃ evs, attempt_offline_reports c s = Ret true (set_events (events s ++ evs) s) ∧
         sleeps evs = 0%nat ∧ removals evs = [].
Proof.
  intros Hne Hok. unfold cycle_succeeds in Hok.
  destruct (attempt_outcome s c) as (evs & Heq & Hq).
  - intros Hs. split; [by apply Hne|].
    destruct Hs as [i Hi]. rewrite Hi in Hok.
    destruct (_ftp s); [|by rewrite Hok].
    destruct (smtp_ok (cycle_smtp c)); [done|].
    destruct (smtp_refused (cycle_smtp c)); done.
  - intros [i Hi]. rewrite Hi in Hok.
    destruct (_smtp s); [|by rewrite Hok].
    destruct (ftp_bulk_ok (cycle_ftp c) (length (list_reports s))); [done|].
    destruct (ftp_refused (cycle_ftp c)); [done|].
    by rewrite !andb_false_r in Hok.
  - exists evs. split; [|exact Hq]. rewrite Heq. f_equal.
    destruct (_smtp s), (_ftp s); try done.
    + destruct (smtp_ok (cycle_smtp c)); [done|].
      destruct (ftp_bulk_ok (cycle_ftp c) (length (list_reports s))); [done|].
      by rewrite !andb_false_r in Hok.
    + by rewrite orb_false_r.
Qed.

Lemma after_loop_true (s : reporter) :
  after_loop true s =
  Ret Stopped
    (add_event (LogInfo "CrashReporter: Watcher stopped.")
       (set_events (events s ++ (FsRemove <$> list_reports s))
          (set_report_dir (remove_all (list_reports s) (report_dir s)) s))).
Proof. unfold after_loop, bind. rewrite delete_offline_reports_spec. reflexivity. Qed.

(** X21. The watcher flag is set, the main thread leaves the reporter
    alone, and the store holds reports (at least one when the mail channel
    is set up). If the configured channels answer [False] during the
    cycles of [before] and deliver during the next cycle [c], however many
    cycles [rest] would still be available, the thread returns. Its events
    are: [length before + 1] sleeps with the delivery attempts, during
    which no file is removed; then one removal per stored report; then the
    record "Watcher stopped.". The store is empty afterwards. *)
Theorem watcher_converges
    (before : list cycle) (c : cycle) (rest : list cycle) (s : reporter) :
  _watcher_enabled s = true →
  (is_Some (_smtp s) → list_reports s ≠ []) →
  Forall (fun c' => during_sleep c' = [] ∧ cycle_fails s c' = true) before →
  during_sleep c = [] →
  cycle_succeeds s (length (list_reports s)) c = true →
  ∃ s' attempts,
    _watcher_thread (before ++ c :: rest) s = Ret Stopped s' ∧
    events s' = events s ++ attempts ++ (FsRemove <$> list_reports s)
                ++ [LogInfo "CrashReporter: Watcher stopped."] ∧
    sleeps attempts = S (length before) ∧
    removals attempts = [] ∧
    list_reports s' = [].
Proof.
  revert s. induction before as [|c0 before IH]; intros s Hen Hne Hfail Hquiet Hok.
  - simpl app. rewrite watcher_thread_quiet_cycle by done.
    destruct (attempt_when_cycle_succeeds (add_event Sleep s) c)
      as (evs & -> & Hs & Hr); [exact Hne | exact Hok |].
    rewrite after_loop_true.
    eexists. exists (Sleep :: evs). split; [reflexivity|].
    split; [|split; [|split]].
    + unfold list_reports. norm_state. reflexivity.
    + change (Sleep :: evs) with ([Sleep] ++ evs).
      rewrite sleeps_app, Hs. reflexivity.
    + change (Sleep :: evs) with ([Sleep] ++ evs).
      rewrite removals_app, Hr. reflexivity.
    + unfold list_reports. simpl. apply list_reports_remove_all.
  - apply Forall_cons in Hfail as [[Hq0 Hf0] Hfail].
    simpl app. rewrite watcher_thread_quiet_cycle by done.
    destruct (attempt_when_cycle_fails (add_event Sleep s) c0)
      as (evs & -> & Hs & Hr); [exact Hne | exact Hf0 |].
    destruct (IH (set_events (events (add_event Sleep s) ++ evs) (add_event Sleep s)))
      as (s' & attempts & -> & Hev & Hsl & Hrm & Hnil);
      [exact Hen | exact Hne | exact Hfail | exact Hquiet | exact Hok |].
    exists s', (Sleep :: evs ++ attempts). split; [reflexivity|].
    split; [|split; [|split]].
    + rewrite Hev. unfold list_reports. norm_state. reflexivity.
    + change (Sleep :: evs ++ attempts) with ([Sleep] ++ evs ++ attempts).
      rewrite !sleeps_app, Hs, Hsl. reflexivity.
    + change (Sleep :: evs ++ attempts) with ([Sleep] ++ evs ++ attempts).
      rewrite !removals_app, Hr, Hrm. reflexivity.
    + exact Hnil.
Qed.

Lemma watcher_converges_witness :
  let s := final (setup_smtp example_smtp watching_reporter) in
  let before := [quiet_cycle (Some SocketError) ftp_down;
                 quiet_cycle (Some SMTPException) ftp_down] in
  let c := quiet_cycle None ftp_down in
  _watcher_enabled s = true ∧
  list_reports s = ["crashreport01.txt"] ∧
  ∃ s' attempts,
    _watcher_thread (before ++ c :: [c; c]) s = Ret Stopped s' ∧
    events s' = events s ++ attempts ++ (FsRemove <$> list_reports s)
                ++ [LogInfo "CrashReporter: Watcher stopped."] ∧
    sleeps attempts = 3%nat ∧
    removals attempts = [] ∧
    list_reports s' = [].
Proof.
  intros s before c.
  split; [vm_compute; reflexivity|]. split; [vm_compute; reflexivity|].
  apply (watcher_converges before c [c; c] s).
  - vm_compute; reflexivity.
  - intros _. vm_compute. discriminate.
  - repeat constructor; vm_compute; reflexivity.
  - vm_compute; reflexivity.
  - vm_compute; reflexivity.
Defined.

(** * Further properties *)

(** ** Frames *)

Lemma set_events_id (s : reporter) : set_events (events s) s = s.
Proof. by destruct s. Qed.

#[local] Instance only_adds_preorder (Q : event → bool) : PreOrder (only_adds Q).
Proof.
  split.
  - intros s. exists []. split; [|done]. by rewrite app_nil_r, set_events_id.
  - intros s1 s2 s3 (evs1 & -> & H1) (evs2 & -> & H2).
    exists (evs1 ++ evs2). split; [norm_state; reflexivity|].
    by rewrite forallb_app, H1, H2.
Qed.

#[local] Instance only_store_preorder : PreOrder only_store.
Proof.
  split.
  - intros s. exists (report_dir s), []. split; [|done].
    destruct s; norm_state. by rewrite app_nil_r.
  - intros s1 s2 s3 (d1 & evs1 & -> & H1) (d2 & evs2 & -> & H2).
    exists d2, (evs1 ++ evs2). split; [norm_state; reflexivity|].
    by rewrite forallb_app, H1, H2.
Qed.

#[local] Instance keeps_control_preorder : PreOrder keeps_control.
Proof.
  split.
  - intros s. by repeat split.
  - intros s1 s2 s3 (?&?&?&?&?&?&?&?) (?&?&?&?&?&?&?&?).
    repeat split; try congruence. auto.
Qed.

Section Preserves.
Context (R : relation reporter) `{!PreOrder R}.

Lemma preserves_ret {A} (a : A) : preserves R (ret a).
Proof. intros s. simpl. reflexivity. Qed.

Lemma preserves_raise {A} (e : exn) : preserves R (@raise A e).
Proof. intros s. simpl. reflexivity. Qed.

Lemma preserves_gets {A} (f : reporter → A) : preserves R (gets f).
Proof. intros s. simpl. reflexivity. Qed.

Lemma preserves_bind {A B} (m : M A) (k : A → M B) :
  preserves R m → (∀ a, preserves R (k a)) → preserves R (bind m k).
Proof.
  intros Hm Hk s. unfold bind. specialize (Hm s).
  destruct (m s) as [a s1|e s1]; simpl in *; [|done].
  etrans; [exact Hm | apply Hk].
Qed.

Lemma preserves_for_each {A} (l : list A) (body : A → M unit) :
  (∀ x, preserves R (body x)) → preserves R (for_each l body).
Proof.
  intros Hb. induction l as [|x l IH]; simpl.
  - apply preserves_ret.
  - apply preserves_bind; [apply Hb | intros _; exact IH].
Qed.

Lemma preserves_lift_exn (o : option exn) : preserves R (lift_exn o).
Proof. destruct o; [apply preserves_raise | apply preserves_ret]. Qed.

Lemma preserves_read_file (name : string) : preserves R (read_file name).
Proof. intros s. unfold read_file. destruct (report_dir s !! name); simpl; reflexivity. Qed.

Lemma preserves_ior_assign (b : bool) (v : value) : preserves R (ior_assign b v).
Proof.
  unfold ior_assign. destruct (ior b v); [apply preserves_raise | apply preserves_ret].
Qed.
End Preserves.

Lemma preserves_weaken {A} (R1 R2 : relation reporter) (m : M A) :
  (∀ s s', R1 s s' → R2 s s') → preserves R1 m → preserves R2 m.
Proof. intros Hsub Hm s. apply Hsub, Hm. Qed.

Lemma preserves_add_event (Q : event → bool) (e : event) :
  Q e = true → preserves (only_adds Q) (modify (add_event e)).
Proof.
  intros HQ s. exists [e]. split; [reflexivity|]. simpl. by rewrite HQ.
Qed.

Lemma thread_starts_app (a b : list event) :
  thread_starts (a ++ b) = (thread_starts a + thread_starts b)%nat.
Proof. unfold thread_starts. apply count_occ_app. Qed.

Lemma thread_starts_none (Q : event → bool) (evs : list event) :
  Q ThreadStart = false → forallb Q evs = true → thread_starts evs = 0%nat.
Proof.
  intros HQ. induction evs as [|e evs IH]; simpl; [done|].
  intros [He H]%andb_prop. unfold thread_starts. simpl.
  destruct (event_eq_dec e ThreadStart) as [->|_]; [congruence|].
  by apply IH.
Qed.

Lemma only_adds_keeps_control (Q : event → bool) (s s' : reporter) :
  Q ThreadStart = false → only_adds Q s s' → keeps_control s s'.
Proof.
  intros HQ (evs & -> & H). repeat split; simpl; try done.
  rewrite thread_starts_app, (thread_starts_none Q evs) by done. lia.
Qed.

Lemma only_store_keeps_control (s s' : reporter) :
  only_store s s' → keeps_control s s'.
Proof.
  intros (d & evs & -> & H). repeat split; simpl; try done.
  rewrite thread_starts_app, (thread_starts_none store_event evs) by done. lia.
Qed.

#[local] Instance channel_frame_preorder : PreOrder channel_frame.
Proof.
  split.
  - intros s. exists [], false. split; [|done].
    by rewrite app_nil_r, set_events_id.
  - intros s1 s2 s3 (evs1 & b1 & -> & H1) (evs2 & b2 & -> & H2).
    exists (evs1 ++ evs2), (b1 || b2). split.
    + destruct b1, b2; norm_state; reflexivity.
    + by rewrite forallb_app, H1, H2.
Qed.

Lemma only_adds_channel_frame (s s' : reporter) :
  only_adds channel_event s s' → channel_frame s s'.
Proof. intros (evs & -> & H). by exists evs, false. Qed.

Lemma channel_frame_keeps_control (s s' : reporter) :
  channel_frame s s' → keeps_control s s'.
Proof.
  intros (evs & b & -> & H).
  assert (thread_starts (events s ++ evs) = thread_starts (events s)) as Hts.
  { rewrite thread_starts_app, (thread_starts_none channel_event evs) by done. lia. }
  destruct b; repeat split; simpl; try done.
Qed.

Lemma channel_frame_report_dir (s s' : reporter) :
  channel_frame s s' → report_dir s' = report_dir s.
Proof. intros (evs & b & -> & H). by destruct b. Qed.

(** Applies the frame rules along the structure of a method. *)
Ltac frame :=
  repeat match goal with
    | |- preserves _ (ret _) => apply preserves_ret; apply _
    | |- preserves _ (raise _) => apply preserves_raise; apply _
    | |- preserves _ (gets _) => apply preserves_gets; apply _
    | |- preserves _ (lift_exn _) => apply preserves_lift_exn; apply _
    | |- preserves _ (read_file _) => apply preserves_read_file; apply _
    | |- preserves _ (ior_assign _ _) => apply preserves_ior_assign; apply _
    | |- preserves _ (modify (add_event _)) =>
        apply preserves_add_event; reflexivity
    | |- preserves _ (bind _ _) => apply preserves_bind; [apply _| |intros ?]
    | |- preserves _ (for_each _ _) =>
        apply preserves_for_each; [apply _|intros ?]
    | |- preserves _ (match ?x with _ => _ end) => destruct x
    end.

Lemma sendmail_only_logs (w : smtp_world) (subj body : string) (atts : list string) :
  preserves (only_adds channel_event) (_sendmail w subj body atts).
Proof. unfold _sendmail, log_error. frame. Qed.

Lemma append_reports_reads_only (l : list string) :
  ∀ body, preserves (only_adds channel_event) (append_reports l body).
Proof.
  induction l as [|x l IH]; intros body.
  - apply preserves_ret; apply _.
  - change (append_reports (x :: l) body)
      with (text <- read_file x ;; append_reports l (body +:+ text +:+ separator)).
    frame. apply IH.
Qed.

Lemma smtp_bulk_only_logs (w : smtp_world) :
  preserves (only_adds channel_event) (_smtp_send_offline_reports w).
Proof.
  unfold _smtp_send_offline_reports, _get_offline_reports, log_info.
  frame; first [apply append_reports_reads_only | apply sendmail_only_logs].
Qed.

Lemma ftp_upload_only_logs (w : ftp_world) (i : nat) :
  preserves (only_adds channel_event) (ftp_upload w i).
Proof. unfold ftp_upload. frame. Qed.

Lemma ftp_bulk_only_logs (w : ftp_world) :
  preserves (only_adds channel_event) (_ftp_send_offline_reports w).
Proof.
  unfold _ftp_send_offline_reports, _get_offline_reports, upload_report,
    log_info, log_error.
  frame; apply ftp_upload_only_logs.
Qed.

Lemma attempt_only_logs (c : cycle) :
  preserves (only_adds channel_event) (attempt_offline_reports c).
Proof.
  unfold attempt_offline_reports, log_info.
  frame; first [apply smtp_bulk_only_logs | apply ftp_bulk_only_logs].
Qed.

Lemma os_remove_only_store (name : string) : preserves only_store (os_remove name).
Proof.
  intros s. unfold os_remove. destruct (report_dir s !! name); simpl.
  - eexists _, [FsRemove name]. split; [norm_state; reflexivity|done].
  - reflexivity.
Qed.

Lemma shutil_copy2_only_store (src dst : string) :
  preserves only_store (shutil_copy2 src dst).
Proof.
  intros s. unfold shutil_copy2. destruct (report_dir s !! src); simpl;
    [|reflexivity].
  destruct (decide (src = dst)); simpl; [reflexivity|].
  eexists _, [FsCopy src dst]. split; [norm_state; reflexivity|done].
Qed.

Lemma write_report_only_store (path body : string) :
  preserves only_store (_write_report path body).
Proof.
  intros s. eexists _, [FsWrite path]. split; [norm_state; reflexivity|done].
Qed.

Lemma save_report_only_store (body : string) : preserves only_store (_save_report body).
Proof.
  unfold _save_report, _get_offline_reports. frame;
    first [apply os_remove_only_store | apply shutil_copy2_only_store
          | apply write_report_only_store | idtac].
Qed.

Lemma delete_offline_reports_only_store : preserves only_store delete_offline_reports.
Proof.
  unfold delete_offline_reports, _get_offline_reports. frame.
  apply os_remove_only_store.
Qed.

Lemma stop_watcher_channel_frame : preserves channel_frame stop_watcher.
Proof.
  intros s. rewrite stop_watcher_eq. simpl. destruct (_watcher s).
  - exists [LogInfo "CrashReporter: Stopping watcher."], true. by split.
  - reflexivity.
Qed.

Lemma ftp_submit_channel_frame (w : ftp_world) (body : string) :
  preserves channel_frame (_ftp_submit w body).
Proof.
  unfold _ftp_submit, log_error, log_info. frame;
    first [ apply stop_watcher_channel_frame
          | eapply preserves_weaken; [apply only_adds_channel_frame|];
            first [ apply ftp_upload_only_logs
                  | apply preserves_add_event; reflexivity ] ].
Qed.

(** X4. [_save_report] and [delete_offline_reports] act on the report
    directory alone: whatever the directory holds and whether the call
    returns or raises, the reporter afterwards differs only by its
    directory and by file operations appended to the events. *)
Theorem store_operations_touch_the_directory_only (o : store_op) (s : reporter) :
  ∃ d evs,
    final (run_op o s) = set_events (events s ++ evs) (set_report_dir d s) ∧
    forallb store_event evs = true.
Proof.
  destruct o as [body|]; simpl.
  - apply save_report_only_store.
  - apply delete_offline_reports_only_store.
Qed.


(** X14. Whatever exception information it is given, whatever the servers
    do, whatever the store holds and whether it returns or raises,
    [__exit__] leaves the configuration, the enable switch and the thread
    object as they were, starts no thread and never switches the watcher
    flag on. *)
Theorem exit_keeps_control
    (etype : option exc_info) (sw : smtp_world) (fw : ftp_world) (s : reporter) :
  keeps_control s (final (__exit__ etype sw fw s)).
Proof.
  revert s. change (preserves keeps_control (__exit__ etype sw fw)).
  unfold __exit__, log_info. frame.
  - eapply preserves_weaken; [|apply sendmail_only_logs].
    intros ? ?. by apply only_adds_keeps_control.
  - eapply preserves_weaken; [|apply ftp_submit_channel_frame].
    apply channel_frame_keeps_control.
  - eapply preserves_weaken; [|apply save_report_only_store].
    apply only_store_keeps_control.
  - eapply preserves_weaken;
      [|apply (preserves_add_event channel_event); reflexivity].
    intros ? ?. by apply only_adds_keeps_control.
Qed.

(** ** The store, continued *)

#[local] Instance str_le_total : Total str_le.
Proof. intros a b. unfold str_le. apply String.leb_total. Qed.

(** X1. [_get_offline_reports] changes nothing and returns, in ascending
    order and without duplicates, exactly the names of the directory that
    start with [crashreport], whoever put those files there. *)
Theorem offline_reports_listing (s : reporter) :
  ∃ l, _get_offline_reports s = Ret l s ∧
       Sorted str_le l ∧ NoDup l ∧
       ∀ x, x ∈ l ↔ is_Some (report_dir s !! x) ∧
                    String.prefix "crashreport" x = true.
Proof.
  eexists. split; [reflexivity|]. split; [|split].
  - apply Sorted_merge_sort. apply _.
  - apply NoDup_list_reports.
  - intros x. apply elem_of_list_reports.
Qed.

(** X2. On a report directory whose entries are regular files (the
    directories of this development), [delete_offline_reports] returns:
    it removes each listed report once, in listing order; afterwards no name starting with
    [crashreport] is left, every other file of the directory is as it
    was, and the switches and the thread of the reporter are the same: a
    running watcher is not stopped by it. *)
Theorem purge_removes_exactly_the_reports (s : reporter) :
  ∃ s', delete_offline_reports s = Ret tt s' ∧
        events s' = events s ++ (FsRemove <$> list_reports s) ∧
        (∀ x, String.prefix "crashreport" x = true → report_dir s' !! x = None) ∧
        (∀ x, String.prefix "crashreport" x = false →
              report_dir s' !! x = report_dir s !! x) ∧
        _watcher s' = _watcher s ∧
        _watcher_enabled s' = _watcher_enabled s ∧
        _enabled s' = _enabled s.
Proof.
  eexists. split; [apply delete_offline_reports_spec|]. simpl.
  split; [done|]. split; [|split; [|done]].
  - intros x Hp. rewrite lookup_remove_all.
    destruct (decide (x ∈ list_reports s)) as [|Hnin]; [done|].
    destruct (report_dir s !! x) as [c|] eqn:Hx; [|done].
    exfalso. apply Hnin, elem_of_list_reports. eauto.
  - intros x Hp. rewrite lookup_remove_all.
    destruct (decide (x ∈ list_reports s)) as [Hin|]; [|done].
    apply elem_of_list_reports in Hin as [_ Hp']. congruence.
Qed.

(** X3. Two saves in a row: on a store without reports the first save
    writes [crashreport01.txt]; the second one, whatever its text and
    whatever the limit, raises [ValueError] and changes nothing, so the
    store still holds the first text only. *)
Theorem second_save_raises (s : reporter) (body1 body2 : string) :
  list_reports s = [] →
  ∃ s1, _save_report body1 s = Ret tt s1 ∧
        _save_report body2 s1 = Raise ValueError s1 ∧
        list_reports s1 = [report_template 1] ∧
        report_dir s1 !! report_template 1 = Some body1.
Proof.
  intros Hnil. eexists. split; [by apply save_report_on_no_reports|].
  assert (list_reports
            (add_event (FsWrite (report_template 1))
               (set_report_dir (<[report_template 1 := body1]> (report_dir s)) s))
          = [report_template 1]) as Hone.
  { unfold list_reports in *. simpl. by apply list_reports_first_write. }
  split; [by apply save_on_first_report_raises|].
  split; [exact Hone|]. simpl. apply lookup_insert_eq.
Qed.

Lemma second_save_raises_witness :
  list_reports (fresh_reporter 10) = [] ∧
  ∃ s1, _save_report "first" (fresh_reporter 10) = Ret tt s1 ∧
        _save_report "second" s1 = Raise ValueError s1 ∧
        list_reports s1 = [report_template 1] ∧
        report_dir s1 !! report_template 1 = Some "first".
Proof.
  split; [reflexivity|].
  apply (second_save_raises (fresh_reporter 10) "first" "second"). reflexivity.
Defined.

(** ** Life cycle *)

Lemma start_watcher_eq (s : reporter) :
  list_reports s ≠ [] →
  start_watcher s =
  Ret tt (add_event ThreadStart
            (set_watcher_enabled true
               (set_watcher (Some tt)
                  (add_event (LogInfo "CrashReporter: Starting watcher.") s)))).
Proof.
  unfold list_reports. intros Hne.
  unfold start_watcher, bind, _get_offline_reports, gets.
  destruct (sorted (glob_crashreport (report_dir s))); [done|]. reflexivity.
Qed.

Lemma start_watcher_no_reports (s : reporter) :
  list_reports s = [] → start_watcher s = Ret tt s.
Proof.
  unfold list_reports. intros Hnil.
  unfold start_watcher, bind, _get_offline_reports, gets. by rewrite Hnil.
Qed.

(** X5. The constructor returns an enabled reporter without channels over
    the given directory (empty if it did not exist). It starts the watcher
    exactly when that directory lists a report: then one thread is started
    and the flag is set; otherwise no thread exists, the flag is off and
    nothing is logged. *)
Theorem init_starts_watcher_iff_reports
    (disk : option (gmap string string)) (limit : Z) (use_html : bool) :
  ∃ s, __init__ disk limit use_html = Ret tt s ∧
       _enabled s = true ∧ _smtp s = None ∧ _ftp s = None ∧
       offline_report_limit s = limit ∧
       report_dir s = default ∅ disk ∧
       (list_reports s = [] →
        _watcher s = None ∧ _watcher_enabled s = false ∧ events s = []) ∧
       (list_reports s ≠ [] →
        watcher_running s ∧
        events s = [LogInfo "CrashReporter: Starting watcher."; ThreadStart]).
Proof.
  destruct disk as [d|]; unfold __init__.
  - match goal with |- ∃ _, start_watcher ?self = _ ∧ _ => set (self0 := self) end.
    destruct (decide (list_reports self0 = [])) as [Hnil|Hne].
    + exists self0. split; [by apply start_watcher_no_reports|].
      do 5 (split; [done|]). split; [done|]. intros Hne. by destruct Hne.
    + eexists. split; [by apply start_watcher_eq|].
      do 5 (split; [done|]). split; [|done].
      intros Hnil. by destruct Hne.
  - eexists. split; [reflexivity|].
    do 5 (split; [done|]). split; [done|].
    intros Hne. by destruct Hne.
Qed.

(** X6. [start_watcher] has no guard against a watcher that already runs:
    on a store with reports each call starts a thread, so two calls start
    two. *)
Theorem start_watcher_twice_starts_two_threads (s : reporter) :
  list_reports s ≠ [] →
  ∃ s1 s2, start_watcher s = Ret tt s1 ∧
           start_watcher s1 = Ret tt s2 ∧
           watcher_running s1 ∧ watcher_running s2 ∧
           report_dir s2 = report_dir s ∧
           thread_starts (events s2) = (thread_starts (events s) + 2)%nat.
Proof.
  intros Hne. do 2 eexists.
  split; [apply start_watcher_eq; exact Hne|].
  split; [apply start_watcher_eq; exact Hne|].
  repeat split. simpl. unfold thread_starts. rewrite !count_occ_app. simpl. lia.
Qed.

Lemma start_watcher_twice_starts_two_threads_witness :
  list_reports watching_reporter ≠ [] ∧
  ∃ s1 s2, start_watcher watching_reporter = Ret tt s1 ∧
           start_watcher s1 = Ret tt s2 ∧
           watcher_running s1 ∧ watcher_running s2 ∧
           report_dir s2 = report_dir watching_reporter ∧
           thread_starts (events s2) =
           (thread_starts (events watching_reporter) + 2)%nat.
Proof.
  assert (list_reports watching_reporter ≠ []) as Hne
    by (vm_compute; discriminate).
  split; [exact Hne|].
  exact (start_watcher_twice_starts_two_threads watching_reporter Hne).
Defined.

(** X7. Entering the scope after [disable()] switches reporting on again,
    but not the watcher: [__enter__] only sets [_enabled]. A watcher
    thread that existed stays flagged off and no thread is started. *)
Theorem enter_after_disable (s : reporter) :
  ∃ s', (disable ;; __enter__) s = Ret tt s' ∧
        _enabled s' = true ∧
        _watcher s' = _watcher s ∧
        _watcher_enabled s' = match _watcher s with
                              | Some _ => false
                              | None => _watcher_enabled s
                              end ∧
        report_dir s' = report_dir s ∧
        thread_starts (events s') = thread_starts (events s).
Proof.
  unfold __enter__, enable, disable, bind, log_info, modify.
  rewrite stop_watcher_eq. simpl.
  destruct (_watcher s) eqn:Hw; simpl; eexists; (split; [reflexivity|]);
    simpl; rewrite ?Hw; repeat split; try done;
    unfold thread_starts; rewrite !count_occ_app; simpl; lia.
Qed.

(** X8. After [disable()] a crash that leaves the scope is dropped: no
    channel is tried and nothing is saved; the only trace is the log
    record "No crashes detected.". *)
Theorem disabled_reporter_drops_the_crash
    (s : reporter) (exc : exc_info) (sw : smtp_world) (fw : ftp_world) :
  ∃ s', (disable ;; __exit__ (Some exc) sw fw) s = Ret tt s' ∧
        report_dir s' = report_dir s ∧
        _enabled s' = false ∧
        events s' =
        events s ++ [LogInfo "CrashReporter: Disabled"] ++
        match _watcher s with
        | Some _ => [LogInfo "CrashReporter: Stopping watcher."]
        | None => []
        end ++ [LogInfo "CrashReporter: No crashes detected."].
Proof.
  unfold disable, bind, log_info, modify.
  rewrite stop_watcher_eq. simpl.
  destruct (_watcher s) eqn:Hw; simpl;
    rewrite no_crashes_record_when_disabled by reflexivity;
    eexists; (split; [reflexivity|]); simpl; repeat split;
    by rewrite <- ?app_assoc.
Qed.

(** ** Leaving the scope, continued *)


Lemma ftp_submit_raises (s : reporter) (w : ftp_world) (body : string) (e : exn) :
  is_Some (_ftp s) → ftp_session_error w = None → ftp_live_error w = Some e →
  _ftp_submit w body s = Raise e (add_event (TmpWrite "ftp_report.txt") s).
Proof.
  intros [i Hi] Hs He. unfold ftp_live_error in He.
  unfold _ftp_submit, bind, gets, ftp_upload. rewrite Hi, Hs. simpl.
  destruct (ftp_cwd w) as [e1|]; [by inversion He|]. simpl.
  destruct (ftp_nlst w 0) as [e2|n]; [by inversion He|].
  destruct (ftp_storlines w 0) as [e3|]; [by inversion He|done].
Qed.



(** X10. A report that the mail channel has delivered is still sent to
    the FTP channel, and when the FTP connection then fails, a running
    watcher is flagged off although nothing needed saving. *)
Theorem exit_tries_ftp_after_mail
    (s : reporter) (exc : exc_info) (fw : ftp_world) (e : exn) :
  _enabled s = true →
  is_Some (_smtp s) →
  is_Some (_ftp s) →
  _watcher s = Some tt →
  ftp_session_error fw = Some e →
  ftplib_all_errors e = true →
  ∃ s', __exit__ (Some exc) None fw s = Ret tt s' ∧
        report_dir s' = report_dir s ∧
        _watcher_enabled s' = false ∧
        events s' = events s ++ [MailSent subject (exc_body exc);
                                 LogError "" e;
                                 LogInfo "CrashReporter: Stopping watcher."].
Proof.
  intros Hen [mi Es] [fi Ef] Hw Herr He.
  unfold __exit__, bind, gets. rewrite Hen, Es.
  rewrite sendmail_sent by (rewrite ?Es; eauto). simpl. rewrite Ef.
  rewrite (ftp_submit_refused _ fw e) by (simpl; rewrite ?Ef; eauto).
  rewrite stop_watcher_eq. simpl. rewrite Hw. simpl.
  eexists. split; [reflexivity|]. simpl. split; [done|]. split; [done|].
  by rewrite <- !app_assoc.
Qed.

Lemma exit_tries_ftp_after_mail_witness :
  let s := final (setup_smtp example_smtp watching_reporter) in
  _enabled s = true ∧ _watcher s = Some tt ∧ _watcher_enabled s = true ∧
  ∃ s', __exit__ (Some {| exc_body := "boom" |}) None ftp_down s = Ret tt s' ∧
        report_dir s' = report_dir s ∧
        _watcher_enabled s' = false ∧
        events s' = events s ++ [MailSent subject "boom";
                                 LogError "" SocketError;
                                 LogInfo "CrashReporter: Stopping watcher."].
Proof.
  intros s. split; [reflexivity|]. split; [reflexivity|]. split; [reflexivity|].
  apply (exit_tries_ftp_after_mail s {| exc_body := "boom" |} ftp_down SocketError);
    try reflexivity; simpl; eauto.
Defined.

(** X11. When the FTP server accepts the login and then raises ([cwd],
    listing or upload), the exception leaves [__exit__] before the
    fallback is reached: the report is not saved, even if the mail channel
    had refused it. *)
Theorem exit_ftp_error_loses_report
    (s : reporter) (exc : exc_info) (sw : smtp_world) (fw : ftp_world) (e : exn) :
  _enabled s = true →
  is_Some (_ftp s) →
  (is_Some (_smtp s) → smtp_ok sw || smtp_refused sw = true) →
  ftp_session_error fw = None →
  ftp_live_error fw = Some e →
  ∃ s' evs, __exit__ (Some exc) sw fw s = Raise e s' ∧
            report_dir s' = report_dir s ∧
            events s' = events s ++ evs ∧
            forallb channel_event evs = true.
Proof.
  intros Hen [fi Ef] Hsmtp Hs He.
  unfold __exit__, bind, gets. rewrite Hen.
  destruct (_smtp s) as [mi|] eqn:Es.
  - specialize (Hsmtp (ltac:(eauto))).
    destruct sw as [e0|]; simpl in Hsmtp.
    + rewrite sendmail_refused by (rewrite ?Es; eauto). simpl. rewrite Ef.
      rewrite (ftp_submit_raises _ fw _ e) by (simpl; rewrite ?Ef; eauto).
      do 2 eexists. split; [reflexivity|]. simpl. split; [done|].
      rewrite <- app_assoc. split; [reflexivity|done].
    + rewrite sendmail_sent by (rewrite ?Es; eauto). simpl. rewrite Ef.
      rewrite (ftp_submit_raises _ fw _ e) by (simpl; rewrite ?Ef; eauto).
      do 2 eexists. split; [reflexivity|]. simpl. split; [done|].
      rewrite <- app_assoc. split; [reflexivity|done].
  - simpl. rewrite Ef.
    rewrite (ftp_submit_raises _ fw _ e) by (rewrite ?Ef; eauto).
    do 2 eexists. split; [reflexivity|]. simpl. split; [done|].
    split; [reflexivity|done].
Qed.

Lemma exit_ftp_error_loses_report_witness :
  let s := final (setup_ftp example_ftp mail_reporter) in
  _enabled s = true ∧ list_reports s = [] ∧
  ∃ s' evs, __exit__ (Some {| exc_body := "boom" |}) (Some SocketError)
              ftp_no_such_dir s = Raise FTPError s' ∧
            report_dir s' = report_dir s ∧
            events s' = events s ++ evs ∧
            forallb channel_event evs = true.
Proof.
  intros s. split; [reflexivity|]. split; [reflexivity|].
  apply (exit_ftp_error_loses_report s {| exc_body := "boom" |}
           (Some SocketError) ftp_no_such_dir FTPError);
    try reflexivity; simpl; eauto.
Defined.

(** X12. Once a report is stored under the reporter's own file names, a
    later crash that no channel delivers is not persisted: [__exit__]
    raises [ValueError] from the save and the directory is as before. *)
Theorem exit_with_stored_report_raises
    (s : reporter) (exc : exc_info) (sw : smtp_world) (fw : ftp_world) :
  _enabled s = true →
  list_reports s ≠ [] →
  (∀ x, x ∈ list_reports s → ∃ n, x = report_template n) →
  (is_Some (_smtp s) → smtp_refused sw = true) →
  (is_Some (_ftp s) → ftp_refused fw = true) →
  ∃ s', __exit__ (Some exc) sw fw s = Raise ValueError s' ∧
        report_dir s' = report_dir s.
Proof.
  intros Hen Hne Hnames Hsmtp Hftp.
  destruct (exit_when_channels_refuse s exc sw fw Hen Hsmtp Hftp)
    as (s1 & -> & Hd & _).
  exists s1. split; [|exact Hd].
  apply save_on_nonempty_store_raises; unfold list_reports; rewrite Hd; done.
Qed.

Lemma exit_with_stored_report_raises_witness :
  let s := final (_save_report "first" mail_reporter) in
  _enabled s = true ∧ list_reports s = [report_template 1] ∧
  ∃ s', __exit__ (Some {| exc_body := "second" |}) (Some SocketError) ftp_down s
        = Raise ValueError s' ∧
        report_dir s' = report_dir s.
Proof.
  intros s.
  assert (list_reports s = [report_template 1]) as Hl by (vm_compute; reflexivity).
  split; [reflexivity|]. split; [exact Hl|].
  apply (exit_with_stored_report_raises s {| exc_body := "second" |}
           (Some SocketError) ftp_down).
  - reflexivity.
  - rewrite Hl. discriminate.
  - intros x Hx. rewrite Hl in Hx. apply list_elem_of_singleton in Hx.
    exists 1. exact Hx.
  - intros _. reflexivity.
  - intros [i Hi]. discriminate Hi.
Defined.

(** ** The watcher thread, continued *)

Lemma append_reports_eq (l : list string) :
  ∀ (contents : list string) (body : string) (s : reporter),
    Forall2 (fun name text => report_dir s !! name = Some text) l contents →
    append_reports l body s =
    Ret (fold_left (fun b t => b +:+ t +:+ separator) contents body) s.
Proof.
  induction l as [|x l IH]; intros contents body s Hall.
  - apply Forall2_nil_inv_l in Hall as ->. reflexivity.
  - apply Forall2_cons_inv_l in Hall as (t & contents' & Ht & Hall & ->).
    simpl. unfold bind, read_file. rewrite Ht. by apply IH.
Qed.

Lemma stored_texts (d : gmap string string) (l : list string) :
  (∀ x, x ∈ l → is_Some (d !! x)) →
  ∃ contents, Forall2 (fun name text => d !! name = Some text) l contents.
Proof.
  induction l as [|x l IH]; intros Hin.
  - by exists [].
  - destruct (Hin x) as [t Ht]; [by left|].
    destruct IH as [contents Hc]; [intros y Hy; apply Hin; by right|].
    exists (t :: contents). by constructor.
Qed.

(** X15. With at least one stored report the bulk mail is one message:
    its body is the heading followed by the text of every listed report,
    in listing order, each closed by the separator line. If the session
    succeeds the result is [True]; if it raises an [Exception] the result
    is [False] and the error is logged. The store is read only. *)
Theorem bulk_mail_lists_every_report (s : reporter) :
  is_Some (_smtp s) →
  list_reports s ≠ [] →
  ∃ contents,
    Forall2 (fun name text => report_dir s !! name = Some text)
            (list_reports s) contents ∧
    _smtp_send_offline_reports None s =
      Ret (PyBool true)
          (set_events (events s ++ [MailSent subject (bulk_body contents);
                                    LogInfo "CrashReporter: Offline reports sent."])
                      s) ∧
    ∀ e, is_Exception e = true →
         _smtp_send_offline_reports (Some e) s =
         Ret (PyBool false) (add_event (LogError "CrashReporter: " e) s).
Proof.
  intros Hs Hne.
  destruct (stored_texts (report_dir s) (list_reports s)) as [contents Hc].
  { intros x Hx. by apply elem_of_list_reports in Hx as [? _]. }
  exists contents. split; [exact Hc|].
  unfold list_reports in *.
  unfold _smtp_send_offline_reports, bind, _get_offline_reports, gets.
  destruct (sorted (glob_crashreport (report_dir s))) as [|r l] eqn:Hl; [done|].
  rewrite (append_reports_eq (r :: l) contents) by exact Hc.
  fold (bulk_body contents). split.
  - rewrite sendmail_sent by done. simpl. unfold log_info, modify.
    norm_state. reflexivity.
  - intros e He. rewrite sendmail_refused by done. reflexivity.
Qed.

Lemma bulk_mail_lists_every_report_witness :
  let s := final (setup_smtp example_smtp watching_reporter) in
  list_reports s = ["crashreport01.txt"] ∧
  _smtp_send_offline_reports None s =
  Ret (PyBool true)
      (set_events (events s ++ [MailSent subject (bulk_body ["old"]);
                                LogInfo "CrashReporter: Offline reports sent."])
                  s).
Proof.
  intros s.
  assert (list_reports s = ["crashreport01.txt"]) as Hl by (vm_compute; reflexivity).
  split; [exact Hl|].
  assert (is_Some (_smtp s)) as Hc by (simpl; eauto).
  assert (list_reports s ≠ []) as Hne by (rewrite Hl; discriminate).
  destruct (bulk_mail_lists_every_report s Hc Hne) as (contents & Hall & Heq & _).
  rewrite Hl in Hall.
  apply Forall2_cons_inv_l in Hall as (t & rest & Ht & Hrest & ->).
  apply Forall2_nil_inv_l in Hrest as ->.
  assert (t = "old") as -> by (vm_compute in Ht; congruence).
  exact Heq.
Defined.

Lemma exit_preserves_control
    (etype : option exc_info) (sw : smtp_world) (fw : ftp_world) :
  preserves keeps_control (__exit__ etype sw fw).
Proof.
  unfold __exit__, log_info. frame.
  - eapply preserves_weaken; [|apply sendmail_only_logs].
    intros ? ?. by apply only_adds_keeps_control.
  - eapply preserves_weaken; [|apply ftp_submit_channel_frame].
    apply channel_frame_keeps_control.
  - eapply preserves_weaken; [|apply save_report_only_store].
    apply only_store_keeps_control.
  - eapply preserves_weaken;
      [|apply (preserves_add_event channel_event); reflexivity].
    intros ? ?. by apply only_adds_keeps_control.
Qed.

(** What one call of the main thread does to the thread object and to
    the flag: the thread object stays, only [start_watcher] can set the
    flag, and [disable] and [stop_watcher] clear it. *)
Lemma run_main_call_flag (c : main_call) (s : reporter) :
  ∃ s', run_main_call c s = Ret tt s' ∧
        (_watcher s = Some tt → _watcher s' = Some tt) ∧
        (c ≠ CallStartWatcher →
         _watcher_enabled s = false → _watcher_enabled s' = false) ∧
        (c = CallDisable ∨ c = CallStopWatcher →
         _watcher s = Some tt → _watcher_enabled s' = false).
Proof.
  unfold run_main_call. eexists. split; [reflexivity|].
  destruct c as [| | | | |i|i|etype sw fw]; simpl.
  - unfold disable, bind, log_info, modify. rewrite stop_watcher_eq. simpl.
    destruct (_watcher s) eqn:Hw; simpl; repeat split; try done;
      try (intros; congruence).
  - rewrite stop_watcher_eq. simpl.
    destruct (_watcher s) eqn:Hw; simpl; repeat split; try done;
      try (intros; congruence).
  - rewrite delete_offline_reports_spec. simpl. repeat split; try done.
    intros [H|H]; discriminate H.
  - repeat split; try done. intros [H|H]; discriminate H.
  - destruct (decide (list_reports s = [])) as [Hnil|Hne].
    + rewrite start_watcher_no_reports by done. simpl.
      repeat split; try done. intros [H|H]; discriminate H.
    + rewrite start_watcher_eq by done. simpl.
      repeat split; try done. intros [H|H]; discriminate H.
  - repeat split; try done. intros [H|H]; discriminate H.
  - repeat split; try done. intros [H|H]; discriminate H.
  - destruct (exit_preserves_control etype sw fw s)
      as (_ & _ & _ & _ & _ & Hw & Hflag & _).
    split; [by rewrite Hw|]. split.
    + intros _ Hoff.
      destruct (_watcher_enabled (final (__exit__ etype sw fw s))) eqn:Hon;
        [|done].
      rewrite (Hflag eq_refl) in Hoff. discriminate Hoff.
    + intros [H|H]; discriminate H.
Qed.

Lemma main_calls_flag (l : list main_call) :
  ∀ s, ∃ s', for_each l run_main_call s = Ret tt s' ∧
             (_watcher s = Some tt → _watcher s' = Some tt) ∧
             (CallStartWatcher ∉ l →
              _watcher_enabled s = false → _watcher_enabled s' = false).
Proof.
  induction l as [|c l IH]; intros s.
  - exists s. by repeat split.
  - destruct (run_main_call_flag c s) as (s1 & Hc & Hw1 & Hoff1 & _).
    destruct (IH s1) as (s2 & Hl & Hw2 & Hoff2).
    exists s2. simpl. unfold bind. rewrite Hc, Hl.
    split; [reflexivity|]. split; [auto|].
    intros Hnot Hoff. apply not_elem_of_cons in Hnot as [Hne Hnot].
    apply Hoff2; [done|]. apply Hoff1; [congruence|done].
Qed.

Lemma for_each_app {A} (l1 l2 : list A) (body : A → M unit) (s s1 : reporter) :
  for_each l1 body s = Ret tt s1 →
  for_each (l1 ++ l2) body s = for_each l2 body s1.
Proof.
  revert s. induction l1 as [|x l1 IH]; intros s Hrun; simpl in *.
  - by injection Hrun as ->.
  - unfold bind in *. destruct (body x s) as [[] s0|e s0]; [|done].
    by apply IH.
Qed.

(** X16. Disabling is cooperative. If, while the watcher sleeps, the main
    thread calls [disable] or [stop_watcher] and does not call
    [start_watcher] after it (any other public method may be called
    before or after, [start_watcher] only before), the thread, once
    awake, tries no channel and purges nothing: it adds the record
    "Watcher stopped." to the state the main thread left and returns. *)
Theorem watcher_stops_after_disable
    (s : reporter) (c : cycle) (rest : list cycle)
    (before : list main_call) (stop : main_call) (after : list main_call) :
  _watcher s = Some tt →
  during_sleep c = before ++ stop :: after →
  stop = CallDisable ∨ stop = CallStopWatcher →
  CallStartWatcher ∉ after →
  ∃ s1, for_each (during_sleep c) run_main_call (add_event Sleep s) = Ret tt s1 ∧
        _watcher_thread (c :: rest) s =
        Ret Stopped (add_event (LogInfo "CrashReporter: Watcher stopped.") s1).
Proof.
  intros Hw Hsleep Hstop Hnot.
  destruct (main_calls_flag before (add_event Sleep s)) as (sa & Hbefore & Hwa & _).
  destruct (run_main_call_flag stop sa) as (sb & Hcall & Hwb & _ & Hoff).
  destruct (main_calls_flag after sb) as (s1 & Hafter & _ & Hkeep).
  assert (for_each (during_sleep c) run_main_call (add_event Sleep s) = Ret tt s1)
    as Hcalls.
  { rewrite Hsleep, (for_each_app before _ _ _ sa) by exact Hbefore.
    simpl. unfold bind. by rewrite Hcall. }
  exists s1. split; [exact Hcalls|].
  simpl. unfold bind at 1. unfold modify at 1. unfold bind at 1.
  rewrite Hcalls. unfold bind at 1, gets at 1.
  rewrite (Hkeep Hnot (Hoff Hstop (Hwa Hw))). reflexivity.
Qed.

Lemma watcher_stops_after_disable_witness :
  let s := final (setup_smtp example_smtp watching_reporter) in
  let c := {| during_sleep := [CallStartWatcher; CallDisable; CallEnable];
              cycle_smtp := None; cycle_ftp := ftp_up 0 |} in
  _watcher s = Some tt ∧
  ∃ s1, for_each (during_sleep c) run_main_call (add_event Sleep s) = Ret tt s1 ∧
        _watcher_thread [c] s =
        Ret Stopped (add_event (LogInfo "CrashReporter: Watcher stopped.") s1) ∧
        list_reports s1 = ["crashreport01.txt"].
Proof.
  intros s c. split; [reflexivity|].
  destruct (watcher_stops_after_disable s c [] [CallStartWatcher] CallDisable
              [CallEnable] eq_refl eq_refl) as (s1 & Hcalls & Hrun).
  { by left. }
  { intros H. apply list_elem_of_singleton in H. discriminate H. }
  exists s1. split; [exact Hcalls|]. split; [exact Hrun|].
  vm_compute in Hcalls. injection Hcalls as <-. vm_compute. reflexivity.
Defined.

(** The proviso on [start_watcher] is needed: called after [disable]
    during the same sleep, it sets the flag again, and the thread that was
    asleep delivers and purges as if it had never been stopped. *)
Example start_watcher_revives_the_sleeping_thread :
  let s := final (setup_smtp example_smtp watching_reporter) in
  let c := {| during_sleep := [CallDisable; CallStartWatcher];
              cycle_smtp := None; cycle_ftp := ftp_down |} in
  ∃ s', _watcher_thread [c] s = Ret Stopped s' ∧
        list_reports s' = [] ∧
        thread_starts (events s') = 2%nat.
Proof. intros s c. eexists. split; [vm_compute; reflexivity|]. by vm_compute. Qed.

(** X17. A failed cycle is never fatal: as long as the flag is set, the
    main thread does not interfere and every configured channel answers
    [False], the thread is still in its loop after any number of cycles,
    having slept once per cycle; the reporter is unchanged apart from the
    events of the attempts and no file was removed. Without any channel
    configured this is every cycle. *)
Theorem watcher_keeps_trying_while_channels_fail
    (cycles : list cycle) (s : reporter) :
  _watcher_enabled s = true →
  (is_Some (_smtp s) → list_reports s ≠ []) →
  Forall (fun c => during_sleep c = [] ∧ cycle_fails s c = true) cycles →
  ∃ evs, _watcher_thread cycles s = Ret Sleeping (set_events (events s ++ evs) s) ∧
         sleeps evs = length cycles ∧
         removals evs = [].
Proof.
  revert s. induction cycles as [|c cycles IH]; intros s Hen Hne Hfail.
  - exists []. split; [|done]. simpl. unfold ret.
    by rewrite app_nil_r, set_events_id.
  - apply Forall_cons in Hfail as [[Hq Hf] Hfail].
    rewrite watcher_thread_quiet_cycle by done.
    destruct (attempt_when_cycle_fails (add_event Sleep s) c)
      as (evs & -> & Hs & Hr); [exact Hne | exact Hf |].
    destruct (IH (set_events (events (add_event Sleep s) ++ evs) (add_event Sleep s)))
      as (evs' & -> & Hs' & Hr'); [exact Hen | exact Hne | exact Hfail |].
    exists (Sleep :: evs ++ evs'). split; [norm_state; reflexivity|].
    change (Sleep :: evs ++ evs') with ([Sleep] ++ evs ++ evs').
    rewrite !sleeps_app, !removals_app, Hs, Hs', Hr, Hr'. done.
Qed.

Lemma watcher_keeps_trying_while_channels_fail_witness :
  let s := final (setup_smtp example_smtp watching_reporter) in
  let cycles := [quiet_cycle (Some SocketError) ftp_down;
                 quiet_cycle (Some SMTPException) ftp_down;
                 quiet_cycle (Some SocketError) ftp_down] in
  _watcher_enabled s = true ∧
  ∃ evs, _watcher_thread cycles s = Ret Sleeping (set_events (events s ++ evs) s) ∧
         sleeps evs = 3%nat ∧
         removals evs = [].
Proof.
  intros s cycles. split; [reflexivity|].
  apply (watcher_keeps_trying_while_channels_fail cycles s).
  - reflexivity.
  - intros _. vm_compute. discriminate.
  - repeat constructor; vm_compute; reflexivity.
Defined.

Lemma only_adds_mono (Q1 Q2 : event → bool) (s s' : reporter) :
  (∀ e, Q1 e = true → Q2 e = true) → only_adds Q1 s s' → only_adds Q2 s s'.
Proof.
  intros Hsub (evs & -> & H). exists evs. split; [done|].
  apply forallb_forall. intros e He.
  apply Hsub. by apply (proj1 (forallb_forall Q1 evs) H).
Qed.

Lemma channel_event_thread_event (e : event) :
  channel_event e = true → thread_event e = true.
Proof. unfold thread_event. by intros ->. Qed.

(** X18. Left alone by the main thread, the watcher removes reports all
    at once or not at all, whatever the servers do. Either its run (ended,
    still looping, or killed by an exception) has only appended sleeps and
    channel events to the reporter; or it has returned after removing
    every report listed at its start, once each, as its last action before
    the final log record. *)
Theorem watcher_removes_all_or_nothing (cycles : list cycle) (s : reporter) :
  Forall (fun c => during_sleep c = []) cycles →
  only_adds thread_event s (final (_watcher_thread cycles s)) ∨
  ∃ s' evs,
    _watcher_thread cycles s = Ret Stopped s' ∧
    forallb thread_event evs = true ∧
    events s' = events s ++ evs ++ (FsRemove <$> list_reports s)
                ++ [LogInfo "CrashReporter: Watcher stopped."] ∧
    report_dir s' = remove_all (list_reports s) (report_dir s) ∧
    list_reports s' = [].
Proof.
  revert s. induction cycles as [|c cycles IH]; intros s Hquiet.
  - left. simpl. reflexivity.
  - apply Forall_cons in Hquiet as [Hq Hquiet].
    destruct (_watcher_enabled s) eqn:Hen.
    + rewrite watcher_thread_quiet_cycle by done.
      destruct (attempt_only_logs c (add_event Sleep s)) as (evs & Heq & HQ).
      destruct (attempt_offline_reports c (add_event Sleep s)) as [[|] s1|e s1];
        simpl in Heq; subst s1; lazy beta iota.
      * right. rewrite after_loop_true.
        eexists. exists (Sleep :: evs). split; [reflexivity|].
        split; [simpl; by apply forallb_forall; intros e He;
                apply channel_event_thread_event;
                apply (proj1 (forallb_forall channel_event evs) HQ)|].
        split; [unfold list_reports; norm_state; reflexivity|].
        split; [reflexivity|].
        unfold list_reports. simpl. apply list_reports_remove_all.
      * assert (only_adds thread_event s
                  (set_events (events (add_event Sleep s) ++ evs) (add_event Sleep s)))
          as Hstep.
        { exists (Sleep :: evs). split; [norm_state; reflexivity|].
          simpl. apply forallb_forall. intros e He.
          apply channel_event_thread_event.
          by apply (proj1 (forallb_forall channel_event evs) HQ). }
        destruct (IH (set_events (events (add_event Sleep s) ++ evs)
                        (add_event Sleep s)) Hquiet)
          as [Hl|(s' & evs' & Hrun & HQ' & Hev & Hd & Hnil)].
        -- left. etrans; [exact Hstep | exact Hl].
        -- right. exists s', (Sleep :: evs ++ evs').
           split; [exact Hrun|].
           split.
           { change (Sleep :: evs ++ evs') with ([Sleep] ++ evs ++ evs').
             rewrite !forallb_app, HQ'. simpl. rewrite andb_true_r.
             apply forallb_forall. intros e He.
             apply channel_event_thread_event.
             by apply (proj1 (forallb_forall channel_event evs) HQ). }
           split; [rewrite Hev; unfold list_reports; norm_state; reflexivity|].
           split; [exact Hd | exact Hnil].
      * left. simpl. exists (Sleep :: evs). split; [norm_state; reflexivity|].
        simpl. apply forallb_forall. intros e' He.
        apply channel_event_thread_event.
        by apply (proj1 (forallb_forall channel_event evs) HQ).
    + rewrite watcher_stops_when_flag_cleared by done. left. simpl.
      exists [Sleep; LogInfo "CrashReporter: Watcher stopped."].
      split; [norm_state; reflexivity|done].
Qed.

Lemma watcher_removes_all_or_nothing_witness :
  let s := final (setup_smtp example_smtp watching_reporter) in
  let cycles := [quiet_cycle (Some SocketError) ftp_no_such_dir] in
  only_adds thread_event s (final (_watcher_thread cycles s)) ∧
  report_dir (final (_watcher_thread cycles s)) = report_dir s.
Proof.
  intros s cycles.
  destruct (watcher_removes_all_or_nothing cycles s) as [H|(s' & evs & Hrun & _)].
  - repeat constructor.
  - split; [exact H|]. destruct H as (evs & -> & _). reflexivity.
  - vm_compute in Hrun. discriminate Hrun.
Defined.




(** ** The table of local variables *)





(** ** FTP errors after the login *)

Lemma removals_no_FtpStor (names : list string) : removals (FtpStor <$> names) = [].
Proof. induction names as [|x l IH]; simpl; [done|]. exact IH. Qed.

Lemma for_each_upload_raises (w : ftp_world) (e : exn) (l : list string) :
  ∀ (k : nat) (s : reporter),
    (∀ x, x ∈ l → is_Some (report_dir s !! x)) →
    first_upload_error w (seq k (length l)) = Some e →
    ∃ names, for_each (zip (seq k (length l)) l) (upload_report w) s =
             Raise e (set_events (events s ++ (FtpStor <$> names)) s).
Proof.
  induction l as [|x l IH]; intros k s Hin Herr; simpl in *; [done|].
  destruct (Hin x) as [text Hx]; [by left|].
  unfold bind at 1.
  destruct (ftp_nlst w k) as [e0|n] eqn:Hn.
  - injection Herr as ->. exists [].
    unfold upload_report, bind, read_file, ftp_upload. simpl.
    rewrite Hx, Hn. simpl. unfold raise. f_equal.
    by rewrite app_nil_r, set_events_id.
  - destruct (ftp_storlines w k) as [e0|] eqn:Hst.
    + injection Herr as ->. exists [].
      unfold upload_report, bind, read_file, ftp_upload. simpl.
      rewrite Hx, Hn, Hst. simpl. unfold raise. f_equal.
      by rewrite app_nil_r, set_events_id.
    + rewrite (upload_report_ok w k n x s) by eauto.
      destruct (IH (S k) (add_event (FtpStor (report_template (Z.of_nat n + 1))) s))
        as (names & ->); [|exact Herr|].
      { intros y Hy. simpl. apply Hin. by right. }
      exists (report_template (Z.of_nat n + 1) :: names).
      norm_state. reflexivity.
Qed.

Lemma ftp_bulk_raises (s : reporter) (w : ftp_world) (e : exn) :
  is_Some (_ftp s) →
  ftp_session_error w = None →
  ftp_bulk_error w (length (list_reports s)) = Some e →
  ∃ names, _ftp_send_offline_reports w s =
           Raise e (set_events (events s ++ (FtpStor <$> names)) s).
Proof.
  intros [fi Hi] Hs Herr. unfold ftp_bulk_error in Herr.
  unfold _ftp_send_offline_reports, bind, gets. rewrite Hi, Hs.
  destruct (ftp_cwd w) as [e0|] eqn:Hcwd; simpl.
  - injection Herr as ->. exists []. unfold raise. f_equal.
    by rewrite app_nil_r, set_events_id.
  - unfold _get_offline_reports, gets.
    destruct (for_each_upload_raises w e (list_reports s) 0 s) as (names & Hrun).
    { intros x Hx. by apply elem_of_list_reports in Hx as [? _]. }
    { exact Herr. }
    unfold list_reports in Hrun. rewrite Hrun. by exists names.
Qed.

(** C3 (what the code does). Once the FTP server has accepted connection
    and login, whatever it raises next leaves the channel as an exception:
    nothing is logged and no [False] is returned. For the live attempt
    that is an error of [cwd], of the listing or of the upload; for the
    bulk delivery an error of [cwd] or of the listing or upload of any of
    the stored reports, after the uploads that came before it. *)
Theorem ftp_errors_after_login_propagate
    (s : reporter) (w : ftp_world) (body : string) :
  is_Some (_ftp s) →
  ftp_session_error w = None →
  (∀ e, ftp_live_error w = Some e →
        _ftp_submit w body s =
        Raise e (add_event (TmpWrite "ftp_report.txt") s)) ∧
  (∀ e, ftp_bulk_error w (length (list_reports s)) = Some e →
        ∃ names, _ftp_send_offline_reports w s =
                 Raise e (set_events (events s ++ (FtpStor <$> names)) s)).
Proof.
  intros Hftp Hs. split; intros e He.
  - by apply ftp_submit_raises.
  - by apply ftp_bulk_raises.
Qed.

Lemma ftp_errors_after_login_propagate_witness :
  is_Some (_ftp ftp_reporter) ∧
  ftp_session_error ftp_no_such_dir = None ∧
  ftp_live_error ftp_no_such_dir = Some FTPError ∧
  ftplib_all_errors FTPError = true ∧
  _ftp_submit ftp_no_such_dir "boom" ftp_reporter =
  Raise FTPError (add_event (TmpWrite "ftp_report.txt") ftp_reporter).
Proof.
  assert (is_Some (_ftp ftp_reporter)) as Hc by (simpl; eauto).
  split; [exact Hc|]. split; [reflexivity|]. split; [reflexivity|].
  split; [reflexivity|].
  exact (proj1 (ftp_errors_after_login_propagate ftp_reporter ftp_no_such_dir
                  "boom" Hc eq_refl) FTPError eq_refl).
Defined.

Lemma smtp_bulk_sent (s : reporter) :
  is_Some (_smtp s) →
  list_reports s ≠ [] →
  ∃ contents,
    _smtp_send_offline_reports None s =
    Ret (PyBool true)
        (set_events (events s ++ [MailSent subject (bulk_body contents);
                                  LogInfo "CrashReporter: Offline reports sent."])
                    s).
Proof.
  intros Hs Hne.
  destruct (stored_texts (report_dir s) (list_reports s)) as [contents Hc].
  { intros x Hx. by apply elem_of_list_reports in Hx as [? _]. }
  exists contents. unfold list_reports in *.
  unfold _smtp_send_offline_reports, bind, _get_offline_reports, gets.
  destruct (sorted (glob_crashreport (report_dir s))) as [|r l] eqn:Hl; [done|].
  rewrite (append_reports_eq (r :: l) contents) by exact Hc.
  fold (bulk_body contents).
  rewrite sendmail_sent by done. simpl. unfold log_info, modify.
  norm_state. reflexivity.
Qed.

(** C6 (what the code does). Both channels are set up, the flag is set,
    the main thread leaves the reporter alone and the store holds reports.
    In a cycle where the bulk mail is delivered and the FTP server, after
    the login, raises, the thread does not purge: it ends with that
    exception right after the mail (and the uploads that preceded the
    error), every report is still stored, and no later cycle runs. *)
Theorem watcher_dies_when_ftp_raises_after_mail
    (s : reporter) (c : cycle) (rest : list cycle) (e : exn) :
  _watcher_enabled s = true →
  during_sleep c = [] →
  is_Some (_smtp s) →
  is_Some (_ftp s) →
  list_reports s ≠ [] →
  cycle_smtp c = None →
  ftp_session_error (cycle_ftp c) = None →
  ftp_bulk_error (cycle_ftp c) (length (list_reports s)) = Some e →
  ∃ s' contents names,
    _watcher_thread (c :: rest) s = Raise e s' ∧
    s' = set_events
           (events s ++
            [Sleep;
             LogInfo "CrashReporter: Attempting to send offline reports.";
             MailSent subject (bulk_body contents);
             LogInfo "CrashReporter: Offline reports sent."]
            ++ (FtpStor <$> names)) s ∧
    list_reports s' = list_reports s ∧
    removals (events s') = removals (events s).
Proof.
  intros Hen Hquiet [mi Hm] [fi Hf] Hne Hmail Hs Herr.
  rewrite watcher_thread_quiet_cycle by done.
  unfold attempt_offline_reports, bind, log_info, modify, gets. simpl.
  rewrite Hm, Hmail.
  match goal with |- context [_smtp_send_offline_reports None ?st] =>
    destruct (smtp_bulk_sent st) as (contents & ->)
  end; [simpl; rewrite Hm; eauto | exact Hne |].
  simpl. rewrite Hf.
  match goal with |- context [_ftp_send_offline_reports ?w ?st] =>
    destruct (ftp_bulk_raises st w e) as (names & ->)
  end; [simpl; rewrite Hf; eauto | exact Hs | exact Herr |].
  eexists. exists contents, names. split; [reflexivity|].
  split; [norm_state; reflexivity|]. split; [reflexivity|].
  simpl. rewrite <- !app_assoc. rewrite !removals_app. simpl.
  by rewrite (removals_no_FtpStor names), !app_nil_r.
Qed.

Lemma watcher_dies_when_ftp_raises_after_mail_witness :
  let s := final (setup_smtp example_smtp watching_reporter) in
  let c := quiet_cycle None ftp_no_such_dir in
  _watcher_enabled s = true ∧
  is_Some (_smtp s) ∧ is_Some (_ftp s) ∧
  list_reports s = ["crashreport01.txt"] ∧
  ∃ s' contents names,
    _watcher_thread [c; quiet_cycle None (ftp_up 0)] s = Raise FTPError s' ∧
    s' = set_events
           (events s ++
            [Sleep;
             LogInfo "CrashReporter: Attempting to send offline reports.";
             MailSent subject (bulk_body contents);
             LogInfo "CrashReporter: Offline reports sent."]
            ++ (FtpStor <$> names)) s ∧
    list_reports s' = list_reports s ∧
    removals (events s') = removals (events s).
Proof.
  intros s c.
  assert (is_Some (_smtp s)) as Hm by (simpl; eauto).
  assert (is_Some (_ftp s)) as Hf by (simpl; eauto).
  assert (list_reports s = ["crashreport01.txt"]) as Hl by (vm_compute; reflexivity).
  split; [reflexivity|]. split; [exact Hm|]. split; [exact Hf|].
  split; [exact Hl|].
  apply (watcher_dies_when_ftp_raises_after_mail s c
           [quiet_cycle None (ftp_up 0)] FTPError eq_refl eq_refl Hm Hf).
  - rewrite Hl. discriminate.
  - reflexivity.
  - reflexivity.
  - reflexivity.
Defined.
